(** * pongo2 template sets: sandbox latch, path resolution and template cache

    A shallow embedding of [template_sets.go].  A [TemplateSet] is a record
    that is passed explicitly through every method; the Go maps are [gmap]s
    keyed by strings; the [TemplateLoader] interface is a type class.  The
    methods that fetch and compile also thread a small [World] around the
    set: the allocation counter that gives every [*Template] its identity
    and a log of the calls made to the loader, the compiler and the cache,
    so that statements such as "fetches anew" can be made about the code.

    The mutex [templateCacheMutex] serialises the body of [FromCache]; every
    method is modelled as one atomic step of a sequential program. *)

From stdpp Require Import gmap strings list.

Local Open Scope string_scope.
Local Open Scope list_scope.

(** ** Errors and results *)

(** The fields of pongo2's [Error] struct that [FromFile] fills in. *)
Record Error := mkError {
  Filename : string;
  Sender : string;
  ErrorMsg : string
}.

(** Go's [error] interface, as far as this file produces or inspects it:
    [errors.New]/[fmt.Errorf] values and [*Error]. *)
Inductive error :=
| errorString (msg : string)
| ErrorPtr (e : Error).

(** A Go return pair [(T, error)]. *)
Inductive result (A : Type) :=
| Ok (a : A)
| Err (e : error).
Arguments Ok {A} a.
Arguments Err {A} e.

(** What a call that may panic does. *)
Inductive outcome (A : Type) :=
| Returns (a : A)
| Panics (e : error).
Arguments Returns {A} a.
Arguments Panics {A} e.

Definition bytes := list Byte.byte.

(** An [io.Reader] handed out by a loader, seen through the only thing
    [FromFile] does with it: [ioutil.ReadAll]. *)
Inductive Reader := mkReader (content : result bytes).

Definition ioutil_ReadAll (fd : Reader) : result bytes :=
  match fd with mkReader content => content end.

(** ** The loader interface *)

(** Both methods are functions of the loader and their arguments: a loader
    answers the same question the same way every time it is asked. *)
Class TemplateLoader (L : Type) := {
  Abs : L -> string -> string -> string;
  Get : L -> string -> result Reader
}.

(** ** Calls recorded in the log *)

Inductive Event :=
| EvGet (path : string)                       (* loader.Get(path) *)
| EvCompile (name : string) (isTplString : bool) (buf : bytes)
                                              (* newTemplate(set, name, ..) *)
| EvCacheLookup (key : string)                (* set.templateCache[key] *)
| EvCacheStore (key : string) (addr : nat).   (* set.templateCache[key] = tpl *)

(** ** Templates and template sets *)

(** A [*Template]: its address and the two fields this file reads;
    [Body] is the compiled form, which belongs to the execution engine. *)
Record Template {Body : Type} := mkTemplate {
  tpl_addr : nat;
  name : string;
  isTplString : bool;
  tpl_body : Body
}.
Arguments Template : clear implicits.
Arguments mkTemplate {Body} _ _ _ _.

(** [L] is the loader implementation held by the set, [Value] the values
    stored in a [Context]. *)
Record TemplateSet {L Value Body : Type} := mkTemplateSet {
  set_name : string;
  loader : L;
  Globals : gmap string Value;
  Debug : bool;
  firstTemplateCreated : bool;
  bannedTags : gmap string bool;
  bannedFilters : gmap string bool;
  templateCache : gmap string (Template Body)
}.
Arguments TemplateSet : clear implicits.
Arguments mkTemplateSet {L Value Body} _ _ _ _ _ _ _ _.

(** The set together with the allocator and the call log. *)
Record World {L Value Body : Type} := mkWorld {
  tset : TemplateSet L Value Body;
  next_addr : nat;
  trace : list Event
}.
Arguments World : clear implicits.
Arguments mkWorld {L Value Body} _ _ _.

(** ** What the rest of the package supplies *)

Class Engine (L Value Body : Type) := {
  (** The [Error()] method of [Error], declared in [error.go]. *)
  Error_Error : Error -> string;
  (** Modelled from the spec: the global registries [tags] and [filters]
      (declared in [tags.go] and [filters.go]) are "externally owned sets of
      valid tag names and valid filter names, queried by Ban for validity". *)
  tags : gset string;
  filters : gset string;
  (** Modelled from the spec: the lexer and parser behind [newTemplate]
      ([template.go]) are "the external compiler given raw bytes and a
      group's context/sandbox view"; it either rejects the source or yields
      the compiled body.  It sees the set it is handed and does not update it. *)
  compile : TemplateSet L Value Body -> string -> bool -> bytes -> result Body;
  (** Modelled from the spec: [Template.Execute] ([template.go]),
      "Execute(context) -> renderedText or ExecutionError". *)
  Execute : TemplateSet L Value Body -> Template Body -> gmap string Value ->
            result string;
  (** Modelled from the spec: the name [newTemplateString] gives a template
      "constructed from a raw string (no path identity)". *)
  stringOriginName : string
}.

Section TemplateSets.

Context {L Value Body : Type} `{!TemplateLoader L} `{!Engine L Value Body}.

Implicit Types (set : TemplateSet L Value Body) (w : World L Value Body).

Definition error_Error (e : error) : string :=
  match e with
  | errorString msg => msg
  | ErrorPtr e => Error_Error e
  end.

(** Field assignments. *)
Definition with_Debug (b : bool) set : TemplateSet L Value Body :=
  mkTemplateSet (set_name set) (loader set) (Globals set) b
    (firstTemplateCreated set) (bannedTags set) (bannedFilters set)
    (templateCache set).

Definition with_firstTemplateCreated (b : bool) set : TemplateSet L Value Body :=
  mkTemplateSet (set_name set) (loader set) (Globals set) (Debug set)
    b (bannedTags set) (bannedFilters set) (templateCache set).

Definition with_bannedTags (m : gmap string bool) set : TemplateSet L Value Body :=
  mkTemplateSet (set_name set) (loader set) (Globals set) (Debug set)
    (firstTemplateCreated set) m (bannedFilters set) (templateCache set).

Definition with_bannedFilters (m : gmap string bool) set : TemplateSet L Value Body :=
  mkTemplateSet (set_name set) (loader set) (Globals set) (Debug set)
    (firstTemplateCreated set) (bannedTags set) m (templateCache set).

Definition with_templateCache (m : gmap string (Template Body)) set
    : TemplateSet L Value Body :=
  mkTemplateSet (set_name set) (loader set) (Globals set) (Debug set)
    (firstTemplateCreated set) (bannedTags set) (bannedFilters set) m.

Definition with_set (f : TemplateSet L Value Body -> TemplateSet L Value Body)
    w : World L Value Body :=
  mkWorld (f (tset w)) (next_addr w) (trace w).

Definition log (e : Event) w : World L Value Body :=
  mkWorld (tset w) (next_addr w) (trace w ++ [e]).

Definition alloc w : World L Value Body :=
  mkWorld (tset w) (S (next_addr w)) (trace w).

(** ** NewSet *)

Definition NewSet (name : string) (loader : L) : TemplateSet L Value Body :=
  {| set_name := name;
     loader := loader;
     Globals := ∅;
     Debug := false;
     firstTemplateCreated := false;
     bannedTags := ∅;
     bannedFilters := ∅;
     templateCache := ∅ |}.

Definition newWorld (name : string) (loader : L) : World L Value Body :=
  mkWorld (NewSet name loader) 0 [].

(** ** resolveFilename *)

Definition resolveFilename set (tpl : option (Template Body))
    (path : string) : string :=
  match tpl with
  | Some t =>
      if isTplString t then path
      else Abs (loader set) (name t) path
  | None => Abs (loader set) "" path
  end.

(** ** BanTag and BanFilter *)

Definition BanTag (name : string) set
    : option error * TemplateSet L Value Body :=
  if negb (bool_decide (name ∈ tags)) then
    (Some (errorString ("Tag '" +:+ name +:+ "' not found.")), set)
  else if firstTemplateCreated set then
    (Some (errorString
       "You cannot ban any tags after you've added your first template to your template set."),
     set)
  else
    match bannedTags set !! name with
    | Some _ =>
        (Some (errorString ("Tag '" +:+ name +:+ "' is already banned.")), set)
    | None =>
        (None, with_bannedTags (<[name := true]> (bannedTags set)) set)
    end.

Definition BanFilter (name : string) set
    : option error * TemplateSet L Value Body :=
  if negb (bool_decide (name ∈ filters)) then
    (Some (errorString ("Filter '" +:+ name +:+ "' not found.")), set)
  else if firstTemplateCreated set then
    (Some (errorString
       "You cannot ban any filters after you've added your first template to your template set."),
     set)
  else
    match bannedFilters set !! name with
    | Some _ =>
        (Some (errorString ("Filter '" +:+ name +:+ "' is already banned.")), set)
    | None =>
        (None, with_bannedFilters (<[name := true]> (bannedFilters set)) set)
    end.

(** ** Compiling *)

(** Modelled from the spec: [newTemplate] ([template.go]) runs the
    compiler on the source and, when it accepts, allocates the
    [Template] carrying "its own originating canonical path and a flag
    marking whether it was constructed from a raw string". *)
Definition newTemplate (name : string) (isTplString : bool) (buf : bytes)
    w
    : result (Template Body) * World L Value Body :=
  let w := log (EvCompile name isTplString buf) w in
  match compile (tset w) name isTplString buf with
  | Err e => (Err e, w)
  | Ok body => (Ok (mkTemplate (next_addr w) name isTplString body), alloc w)
  end.

(** Modelled from the spec: [newTemplateString] ([template.go]) compiles
    a raw string into a string-origin template. *)
Definition newTemplateString (buf : bytes) w
    : result (Template Body) * World L Value Body :=
  newTemplate stringOriginName true buf w.

Definition FromString (tpl : string) w
    : result (Template Body) * World L Value Body :=
  let w := with_set (with_firstTemplateCreated true) w in
  newTemplateString (String.list_byte_of_string tpl) w.

Definition FromFile (filename : string) w
    : result (Template Body) * World L Value Body :=
  let w := with_set (with_firstTemplateCreated true) w in
  let path := resolveFilename (tset w) None filename in
  let w := log (EvGet path) w in
  match Get (loader (tset w)) path with
  | Err err =>
      (Err (ErrorPtr {| Filename := filename;
                        Sender := "fromfile";
                        ErrorMsg := error_Error err |}), w)
  | Ok fd =>
      match ioutil_ReadAll fd with
      | Err err =>
          (Err (ErrorPtr {| Filename := filename;
                            Sender := "fromfile";
                            ErrorMsg := error_Error err |}), w)
      | Ok buf => newTemplate filename false buf w
      end
  end.

(** ** FromCache *)

Definition FromCache (filename : string) w
    : result (Template Body) * World L Value Body :=
  if Debug (tset w) then
    FromFile filename w
  else
    let cleanedFilename := resolveFilename (tset w) None filename in
    let w := log (EvCacheLookup cleanedFilename) w in
    match templateCache (tset w) !! cleanedFilename with
    | None =>
        match FromFile cleanedFilename w with
        | (Err err, w) => (Err err, w)
        | (Ok tpl, w) =>
            let w := with_set (fun set =>
                       with_templateCache
                         (<[cleanedFilename := tpl]> (templateCache set)) set) w in
            (Ok tpl, log (EvCacheStore cleanedFilename (tpl_addr tpl)) w)
        end
    | Some tpl => (Ok tpl, w)
    end.

(** ** The render shortcuts *)

(** Modelled from the spec: [Must] ([template.go]) converts "a returned
    failure into a fatal, unrecoverable program termination". *)
Definition Must (r : result (Template Body)) : outcome (Template Body) :=
  match r with
  | Ok tpl => Returns tpl
  | Err e => Panics e
  end.

Definition RenderTemplateString (s : string) (ctx : gmap string Value)
    w : outcome string * World L Value Body :=
  let w := with_set (with_firstTemplateCreated true) w in
  let '(r, w) := FromString s w in
  match Must r with
  | Panics e => (Panics e, w)
  | Returns tpl =>
      match Execute (tset w) tpl ctx with
      | Err err => (Panics err, w)
      | Ok result => (Returns result, w)
      end
  end.

Definition RenderTemplateFile (fn : string) (ctx : gmap string Value)
    w : outcome string * World L Value Body :=
  let w := with_set (with_firstTemplateCreated true) w in
  let '(r, w) := FromFile fn w in
  match Must r with
  | Panics e => (Panics e, w)
  | Returns tpl =>
      match Execute (tset w) tpl ctx with
      | Err err => (Panics err, w)
      | Ok result => (Returns result, w)
      end
  end.

(** ** Programs over a set: sequences of calls *)

Inductive Op :=
| OpBanTag (name : string)
| OpBanFilter (name : string)
| OpFromString (tpl : string)
| OpFromFile (filename : string)
| OpFromCache (filename : string)
| OpRenderTemplateString (s : string) (ctx : gmap string Value)
| OpRenderTemplateFile (fn : string) (ctx : gmap string Value)
| OpSetDebug (b : bool).

Definition step (op : Op) w : World L Value Body :=
  match op with
  | OpBanTag n => with_set (fun set => (BanTag n set).2) w
  | OpBanFilter n => with_set (fun set => (BanFilter n set).2) w
  | OpFromString s => (FromString s w).2
  | OpFromFile f => (FromFile f w).2
  | OpFromCache f => (FromCache f w).2
  | OpRenderTemplateString s ctx => (RenderTemplateString s ctx w).2
  | OpRenderTemplateFile f ctx => (RenderTemplateFile f ctx w).2
  | OpSetDebug b => with_set (with_Debug b) w
  end.

Definition run (ops : list Op) w : World L Value Body :=
  foldl (fun w op => step op w) w ops.

End TemplateSets.

Arguments Op : clear implicits.

(** ** Test doubles

    A loader over an in-memory file table that places every name in a
    virtual namespace by prefixing it, and an engine whose compiler rejects
    the empty source. *)

Record MemLoader := mkMemLoader {
  ml_prefix : string;
  ml_files : gmap string (result bytes)
}.

#[export] Instance MemLoader_TemplateLoader : TemplateLoader MemLoader := {|
  Abs l base name := ml_prefix l +:+ name;
  Get l path :=
    match ml_files l !! path with
    | Some content => Ok (mkReader content)
    | None => Err (errorString ("open " +:+ path +:+ ": no such file or directory"))
    end
|}.

Definition demoCompile (set : TemplateSet MemLoader string bytes) (name : string)
    (isTplString : bool) (buf : bytes) : result bytes :=
  match buf with
  | [] => Err (ErrorPtr {| Filename := name; Sender := "parser";
                           ErrorMsg := "empty template" |})
  | _ => Ok buf
  end.

#[export] Instance demoEngine : Engine MemLoader string bytes := {|
  Error_Error e := "[Error (where: " +:+ Sender e +:+ ") in " +:+ Filename e
                   +:+ "] " +:+ ErrorMsg e;
  tags := {["ssi"; "include"; "extends"]};
  filters := {["safe"; "upper"]};
  compile := demoCompile;
  Execute set tpl ctx := Ok (String.string_of_list_byte (tpl_body tpl));
  stringOriginName := "<string>"
|}.

(** Serves ["/tpl/page.txt"]; names are resolved into the ["/tpl/"] namespace. *)
Definition prefixLoader : MemLoader :=
  mkMemLoader "/tpl/"
    {[ "/tpl/page.txt" := Ok (String.list_byte_of_string "hello");
       "/tpl/broken.txt" := Err (errorString "read: input/output error");
       "/tpl/empty.txt" := Ok [] ]}.

(** The same files with names resolved to themselves. *)
Definition flatLoader : MemLoader :=
  mkMemLoader ""
    {[ "page.txt" := Ok (String.list_byte_of_string "hello");
       "broken.txt" := Err (errorString "read: input/output error");
       "empty.txt" := Ok [] ]}.

Definition demoSet (l : MemLoader) : TemplateSet MemLoader string bytes :=
  NewSet "demo" l.

Definition demoWorld (l : MemLoader) : World MemLoader string bytes :=
  newWorld "demo" l.

(** The template that compiling ["page.txt"] first on a fresh set yields. *)
Definition pageTpl : Template bytes :=
  mkTemplate 0 "page.txt" false (String.list_byte_of_string "hello").

(** The template that compiling the string ["hello"] first yields. *)
Definition stringTpl : Template bytes :=
  mkTemplate 0 "<string>" true (String.list_byte_of_string "hello").

(** The error of a fetch of ["missing.txt"] through [prefixLoader]. *)
Definition missingError : Error :=
  {| Filename := "/tpl/missing.txt"; Sender := "fromfile";
     ErrorMsg := "open /tpl//tpl/missing.txt: no such file or directory" |}.

Definition missingErr : error := ErrorPtr missingError.

(** ** The ban operations by kind, and the errors they return *)

Inductive BanKind := Tag | Filter.

Section Sandbox.

Context {L Value Body : Type} `{!TemplateLoader L} `{!Engine L Value Body}.

Implicit Types (set : TemplateSet L Value Body).

Definition Ban (k : BanKind) (name : string) set
    : option error * TemplateSet L Value Body :=
  match k with
  | Tag => BanTag name set
  | Filter => BanFilter name set
  end.

Definition registry (k : BanKind) : gset string :=
  match k with Tag => tags | Filter => filters end.

Definition banned (k : BanKind) set : gmap string bool :=
  match k with Tag => bannedTags set | Filter => bannedFilters set end.

Definition otherBanned (k : BanKind) set : gmap string bool :=
  match k with Tag => bannedFilters set | Filter => bannedTags set end.

Definition with_banned (k : BanKind) (m : gmap string bool) set
    : TemplateSet L Value Body :=
  match k with Tag => with_bannedTags m set | Filter => with_bannedFilters m set end.

(** The three failures of a ban, named as in the error taxonomy. *)
Definition UnknownName (k : BanKind) (name : string) : error :=
  match k with
  | Tag => errorString ("Tag '" +:+ name +:+ "' not found.")
  | Filter => errorString ("Filter '" +:+ name +:+ "' not found.")
  end.

Definition SandboxFrozen (k : BanKind) : error :=
  match k with
  | Tag => errorString
      "You cannot ban any tags after you've added your first template to your template set."
  | Filter => errorString
      "You cannot ban any filters after you've added your first template to your template set."
  end.

Definition AlreadyBanned (k : BanKind) (name : string) : error :=
  match k with
  | Tag => errorString ("Tag '" +:+ name +:+ "' is already banned.")
  | Filter => errorString ("Filter '" +:+ name +:+ "' is already banned.")
  end.

End Sandbox.

(** ** Calls that produce a template *)

Inductive Call :=
| CallFromString (tpl : string)
| CallFromFile (filename : string)
| CallFromCache (filename : string).

Section Calls.

Context {L Value Body : Type} `{!TemplateLoader L} `{!Engine L Value Body}.

Definition call (c : Call) (w : World L Value Body)
    : result (Template Body) * World L Value Body :=
  match c with
  | CallFromString s => FromString s w
  | CallFromFile f => FromFile f w
  | CallFromCache f => FromCache f w
  end.

(** Calls of a program that reach [FromString] or [FromFile]. *)
Definition is_compile_op (op : Op Value) : bool :=
  match op with
  | OpBanTag _ | OpBanFilter _ | OpSetDebug _ => false
  | _ => true
  end.

Definition is_cache_event (e : Event) : bool :=
  match e with
  | EvCacheLookup _ | EvCacheStore _ _ => true
  | _ => false
  end.

(** What a call appended to the log of [w]. *)
Definition logged (w w' : World L Value Body) : list Event :=
  drop (length (trace w)) (trace w').

(** The source [FromFile] reads for [filename], or the error of the fetch. *)
Definition fetch (set : TemplateSet L Value Body) (filename : string)
    : result bytes :=
  match Get (loader set) (resolveFilename set None filename) with
  | Err err => Err err
  | Ok fd => ioutil_ReadAll fd
  end.

(** The three ways a [FromFile] call can go. *)
Inductive FromFile_case (f : string) (w : World L Value Body) : Prop :=
| FF_fetch_failed err :
    fetch (tset w) f = Err err -> FromFile_case f w
| FF_compile_failed buf e :
    fetch (tset w) f = Ok buf ->
    compile (with_firstTemplateCreated true (tset w)) f false buf = Err e ->
    FromFile_case f w
| FF_compiled buf body :
    fetch (tset w) f = Ok buf ->
    compile (with_firstTemplateCreated true (tset w)) f false buf = Ok body ->
    FromFile_case f w.

(** What [FromFile] appends to the log when called on [set]. *)
Definition fetch_events (set : TemplateSet L Value Body) (filename : string)
    : list Event :=
  EvGet (resolveFilename set None filename) ::
  match fetch set filename with
  | Ok buf => [EvCompile filename false buf]
  | Err _ => []
  end.

(** The ways one call can change the set itself. *)
Inductive set_step (set : TemplateSet L Value Body)
    : TemplateSet L Value Body -> Prop :=
| ss_ban k n : set_step set (Ban k n set).2
| ss_debug b : set_step set (with_Debug b set)
| ss_hit key : is_Some (templateCache set !! key) -> set_step set set
| ss_latch : set_step set (with_firstTemplateCreated true set)
| ss_store key t :
    templateCache set !! key = None ->
    set_step set
      (with_templateCache (<[key := t]> (templateCache set))
         (with_firstTemplateCreated true set)).

(** Programs that only configure the set: bans and the debug switch. *)
Definition config_only (ops : list (Op Value)) : bool :=
  forallb (fun op => negb (is_compile_op op)) ops.

(** A set that holds a cached template has had its latch set. *)
Definition cache_latched (set : TemplateSet L Value Body) : Prop :=
  firstTemplateCreated set = false -> templateCache set = ∅.


End Calls.

(** ** Reading the log and the programs *)

#[export] Instance BanKind_eq_dec : EqDecision BanKind.
Proof. solve_decision. Defined.

(** [EvCacheStore] events for one key. *)
Definition is_store (key : string) (e : Event) : bool :=
  match e with
  | EvCacheStore k _ => bool_decide (k = key)
  | _ => false
  end.

(** How many times the log records a store under [key]. *)
Definition stores (key : string) (tr : list Event) : nat :=
  length (List.filter (is_store key) tr).

Definition is_SetDebug {Value : Type} (op : Op Value) : bool :=
  match op with
  | OpSetDebug _ => true
  | _ => false
  end.

Definition is_FromCache {Value : Type} (op : Op Value) : bool :=
  match op with
  | OpFromCache _ => true
  | _ => false
  end.

(** * Properties *)

(** Closed goals over the test doubles are settled by evaluation. *)
Ltac by_compute := vm_compute; reflexivity.
Ltac by_decide := apply (bool_decide_unpack _); vm_compute; exact I.

Section Theory.

Context {L Value Body : Type} `{!TemplateLoader L} `{!Engine L Value Body}.

Implicit Types (set : TemplateSet L Value Body) (w : World L Value Body)
  (t : Template Body) (op : Op Value) (ops : list (Op Value)).

(** ** What [FromFile] and [FromString] do, case by case *)

Lemma newTemplate_tset n b buf w : tset (newTemplate n b buf w).2 = tset w.
Proof. unfold newTemplate; simpl. destruct (compile _ _ _ _); reflexivity. Qed.

Lemma newTemplate_trace n b buf w :
  trace (newTemplate n b buf w).2 = trace w ++ [EvCompile n b buf].
Proof. unfold newTemplate; simpl. destruct (compile _ _ _ _); reflexivity. Qed.

Lemma FromString_tset s w :
  tset (FromString s w).2 = with_firstTemplateCreated true (tset w).
Proof. unfold FromString, newTemplateString. by rewrite newTemplate_tset. Qed.

Lemma FromFile_tset f w :
  tset (FromFile f w).2 = with_firstTemplateCreated true (tset w).
Proof.
  unfold FromFile; simpl.
  destruct (Get _ _) as [[[buf|e]]|e]; simpl; try reflexivity.
  by rewrite newTemplate_tset.
Qed.

Lemma FromFile_fetch_failed f w err :
  fetch (tset w) f = Err err ->
  FromFile f w =
    (Err (ErrorPtr {| Filename := f; Sender := "fromfile";
                      ErrorMsg := error_Error err |}),
     mkWorld (with_firstTemplateCreated true (tset w)) (next_addr w)
       (trace w ++ [EvGet (resolveFilename (tset w) None f)])).
Proof.
  unfold fetch, FromFile; simpl.
  destruct (Get _ _) as [[[buf|e]]|e]; simpl; intros Hf; by simplify_eq.
Qed.

Lemma FromFile_compile_failed f w buf e :
  fetch (tset w) f = Ok buf ->
  compile (with_firstTemplateCreated true (tset w)) f false buf = Err e ->
  FromFile f w =
    (Err e,
     mkWorld (with_firstTemplateCreated true (tset w)) (next_addr w)
       (trace w ++ [EvGet (resolveFilename (tset w) None f); EvCompile f false buf])).
Proof.
  unfold fetch, FromFile, newTemplate; simpl.
  destruct (Get _ _) as [[[buf'|e']]|e']; simpl; intros Hf Hc; simplify_eq.
  rewrite Hc. unfold log; simpl. by rewrite <- app_assoc.
Qed.

Lemma FromFile_compiled f w buf body :
  fetch (tset w) f = Ok buf ->
  compile (with_firstTemplateCreated true (tset w)) f false buf = Ok body ->
  FromFile f w =
    (Ok (mkTemplate (next_addr w) f false body),
     mkWorld (with_firstTemplateCreated true (tset w)) (S (next_addr w))
       (trace w ++ [EvGet (resolveFilename (tset w) None f); EvCompile f false buf])).
Proof.
  unfold fetch, FromFile, newTemplate; simpl.
  destruct (Get _ _) as [[[buf'|e']]|e']; simpl; intros Hf Hc; simplify_eq.
  rewrite Hc. unfold alloc, log; simpl. by rewrite <- app_assoc.
Qed.

Lemma FromFile_cases f w : FromFile_case f w.
Proof.
  destruct (fetch (tset w) f) as [buf|err] eqn:Hf.
  - destruct (compile (with_firstTemplateCreated true (tset w)) f false buf)
      as [body|e] eqn:Hc.
    + by eapply FF_compiled.
    + by eapply FF_compile_failed.
  - by eapply FF_fetch_failed.
Qed.


(** ** [FromCache], case by case *)

Lemma FromCache_debug f w :
  Debug (tset w) = true -> FromCache f w = FromFile f w.
Proof. unfold FromCache. by intros ->. Qed.

Lemma FromCache_hit f w t :
  Debug (tset w) = false ->
  templateCache (tset w) !! resolveFilename (tset w) None f = Some t ->
  FromCache f w = (Ok t, log (EvCacheLookup (resolveFilename (tset w) None f)) w).
Proof.
  unfold FromCache. intros -> Hk. unfold log at 1; cbn [tset]. by rewrite Hk.
Qed.

Lemma FromCache_miss_failed f w e w' :
  Debug (tset w) = false ->
  templateCache (tset w) !! resolveFilename (tset w) None f = None ->
  FromFile (resolveFilename (tset w) None f)
    (log (EvCacheLookup (resolveFilename (tset w) None f)) w) = (Err e, w') ->
  FromCache f w = (Err e, w').
Proof.
  unfold FromCache. intros -> Hk Hf. unfold log at 1; cbn [tset].
  by rewrite Hk, Hf.
Qed.

Lemma FromCache_miss_compiled f w t w' :
  Debug (tset w) = false ->
  templateCache (tset w) !! resolveFilename (tset w) None f = None ->
  FromFile (resolveFilename (tset w) None f)
    (log (EvCacheLookup (resolveFilename (tset w) None f)) w) = (Ok t, w') ->
  FromCache f w =
    (Ok t,
     log (EvCacheStore (resolveFilename (tset w) None f) (tpl_addr t))
       (with_set (fun set =>
          with_templateCache
            (<[resolveFilename (tset w) None f := t]> (templateCache set)) set) w')).
Proof.
  unfold FromCache. intros -> Hk Hf. unfold log at 1; cbn [tset].
  by rewrite Hk, Hf.
Qed.

(** How a [FromCache] call leaves the set. *)
Lemma FromCache_tset_cases f w :
  (tset (FromCache f w).2 = tset w /\
   is_Some (templateCache (tset w) !! resolveFilename (tset w) None f)) \/
  tset (FromCache f w).2 = with_firstTemplateCreated true (tset w) \/
  (exists t,
     (FromCache f w).1 = Ok t /\
     Debug (tset w) = false /\
     templateCache (tset w) !! resolveFilename (tset w) None f = None /\
     tset (FromCache f w).2 =
       with_templateCache
         (<[resolveFilename (tset w) None f := t]> (templateCache (tset w)))
         (with_firstTemplateCreated true (tset w))).
Proof.
  destruct (Debug (tset w)) eqn:Hd.
  { right; left. rewrite FromCache_debug by done. apply FromFile_tset. }
  destruct (templateCache (tset w) !! resolveFilename (tset w) None f)
    as [t|] eqn:Hk.
  { left. erewrite FromCache_hit by done. eauto. }
  pose proof (FromFile_tset (resolveFilename (tset w) None f)
                (log (EvCacheLookup (resolveFilename (tset w) None f)) w)) as Hs.
  destruct (FromFile (resolveFilename (tset w) None f)
              (log (EvCacheLookup (resolveFilename (tset w) None f)) w))
    as [[t|e] w'] eqn:Hf; simpl in Hs.
  - right; right. exists t.
    erewrite FromCache_miss_compiled by done. simpl. by rewrite Hs.
  - right; left. by erewrite FromCache_miss_failed.
Qed.

Lemma RenderTemplateString_tset s ctx w :
  tset (RenderTemplateString s ctx w).2 = with_firstTemplateCreated true (tset w).
Proof.
  unfold RenderTemplateString.
  pose proof (FromString_tset s (with_set (with_firstTemplateCreated true) w)) as Hs.
  destruct (FromString _ _) as [[t|e] w']; simpl in *.
  - by destruct (Execute _ _ _).
  - done.
Qed.

Lemma RenderTemplateFile_tset fn ctx w :
  tset (RenderTemplateFile fn ctx w).2 = with_firstTemplateCreated true (tset w).
Proof.
  unfold RenderTemplateFile.
  pose proof (FromFile_tset fn (with_set (with_firstTemplateCreated true) w)) as Hs.
  destruct (FromFile _ _) as [[t|e] w']; simpl in *.
  - by destruct (Execute _ _ _).
  - done.
Qed.

(** ** The ban operations *)

Lemma Ban_unknown k n set :
  n ∉ registry k -> Ban k n set = (Some (UnknownName k n), set).
Proof.
  destruct k; simpl; intros Hn; unfold BanTag, BanFilter;
    by rewrite bool_decide_eq_false_2.
Qed.

Lemma Ban_frozen k n set :
  n ∈ registry k -> firstTemplateCreated set = true ->
  Ban k n set = (Some (SandboxFrozen k), set).
Proof.
  destruct k; simpl; intros Hn Hl; unfold BanTag, BanFilter;
    by rewrite bool_decide_eq_true_2, Hl.
Qed.

Lemma Ban_already k n set :
  n ∈ registry k -> firstTemplateCreated set = false ->
  is_Some (banned k set !! n) ->
  Ban k n set = (Some (AlreadyBanned k n), set).
Proof.
  destruct k; simpl; intros Hn Hl [b Hb]; unfold BanTag, BanFilter;
    by rewrite bool_decide_eq_true_2, Hl, Hb.
Qed.

Lemma Ban_fresh k n set :
  n ∈ registry k -> firstTemplateCreated set = false ->
  banned k set !! n = None ->
  Ban k n set = (None, with_banned k (<[n := true]> (banned k set)) set).
Proof.
  destruct k; simpl; intros Hn Hl Hb; unfold BanTag, BanFilter;
    by rewrite bool_decide_eq_true_2, Hl, Hb.
Qed.

Lemma Ban_Tag n set : Ban Tag n set = BanTag n set.
Proof. reflexivity. Qed.

Lemma Ban_Filter n set : Ban Filter n set = BanFilter n set.
Proof. reflexivity. Qed.

(** The four outcomes of a ban, decided in the order of the checks. *)
Lemma Ban_cases k n set :
  ((n ∉ registry k) /\ Ban k n set = (Some (UnknownName k n), set)) \/
  ((n ∈ registry k) /\ firstTemplateCreated set = true /\
   Ban k n set = (Some (SandboxFrozen k), set)) \/
  ((n ∈ registry k) /\ firstTemplateCreated set = false /\
   is_Some (banned k set !! n) /\
   Ban k n set = (Some (AlreadyBanned k n), set)) \/
  ((n ∈ registry k) /\ firstTemplateCreated set = false /\
   banned k set !! n = None /\
   Ban k n set = (None, with_banned k (<[n := true]> (banned k set)) set)).
Proof.
  destruct (decide (n ∈ registry k)) as [Hn|Hn].
  2: { left. split; [done|]. by apply Ban_unknown. }
  right. destruct (firstTemplateCreated set) eqn:Hl.
  { left. split_and!; try done. by apply Ban_frozen. }
  right. destruct (banned k set !! n) as [b|] eqn:Hb.
  - left. split_and!; try done. apply Ban_already; eauto.
  - right. split_and!; try done. by apply Ban_fresh.
Qed.


(** C7 (as amended): a ban of a name absent from the registry fails with
    the unknown-name error; a ban of a registered name that is already in
    the relevant banned set fails with the already-banned error provided no
    template has been created yet (after that the frozen-sandbox error comes
    first); every failing ban returns the set exactly as it was; a ban of a
    registered name that is not yet banned, before any template has been
    created, succeeds; and a successful ban returns the set with exactly
    that name added to the relevant banned set and nothing else changed. *)
Theorem Ban_checks_then_adds (k : BanKind) (n : string) set :
  ((n ∉ registry k) -> Ban k n set = (Some (UnknownName k n), set)) /\
  ((n ∈ registry k) -> firstTemplateCreated set = false ->
   is_Some (banned k set !! n) ->
   Ban k n set = (Some (AlreadyBanned k n), set)) /\
  (forall e, (Ban k n set).1 = Some e -> (Ban k n set).2 = set) /\
  ((n ∈ registry k) -> firstTemplateCreated set = false ->
   banned k set !! n = None -> (Ban k n set).1 = None) /\
  ((Ban k n set).1 = None ->
   (n ∈ registry k) /\ banned k set !! n = None /\
   (Ban k n set).2 = with_banned k (<[n := true]> (banned k set)) set /\
   dom (banned k (Ban k n set).2) = {[n]} ∪ dom (banned k set)).
Proof.
  split_and!.
  - apply Ban_unknown.
  - apply Ban_already.
  - intros e.
    destruct (Ban_cases k n set) as [[_ ->]|[(_&_& ->)|[(_&_&_& ->)|(_&_&_& ->)]]];
      simpl; congruence.
  - intros Hn Hl Hb. by rewrite Ban_fresh.
  - destruct (Ban_cases k n set) as [[_ ->]|[(_&_& ->)|[(_&_&_& ->)|(?&_&?& ->)]]];
      simpl; try congruence.
    intros _. split_and!; try done.
    destruct k; simpl; by rewrite dom_insert_L.
Qed.

(** C10: whatever a ban returns, the name of the set, its loader, its
    globals, its debug flag, the first-template latch, the template cache
    and the banned set of the other kind are as before; a failing ban
    returns the set unchanged, and a successful one differs from it only in
    the banned set of its own kind, which gains the name. *)
Theorem Ban_frame (k : BanKind) (n : string) set :
  set_name (Ban k n set).2 = set_name set /\
  loader (Ban k n set).2 = loader set /\
  Globals (Ban k n set).2 = Globals set /\
  Debug (Ban k n set).2 = Debug set /\
  firstTemplateCreated (Ban k n set).2 = firstTemplateCreated set /\
  templateCache (Ban k n set).2 = templateCache set /\
  otherBanned k (Ban k n set).2 = otherBanned k set /\
  (forall e, (Ban k n set).1 = Some e -> (Ban k n set).2 = set) /\
  ((Ban k n set).1 = None ->
   banned k (Ban k n set).2 = <[n := true]> (banned k set)).
Proof.
  destruct (Ban_cases k n set) as [[_ ->]|[(_&_& ->)|[(_&_&_& ->)|(_&_&_& ->)]]];
    simpl; split_and!; try done; destruct k; done.
Qed.


(** ** Every call is one of the five changes to the set *)

Lemma step_set_step op w : set_step (tset w) (tset (step op w)).
Proof.
  destruct op as [n|n|s|f|f|s ctx|f ctx|b]; simpl.
  - apply (ss_ban _ Tag).
  - apply (ss_ban _ Filter).
  - rewrite FromString_tset. apply ss_latch.
  - rewrite FromFile_tset. apply ss_latch.
  - destruct (FromCache_tset_cases f w) as [[-> Hk]|[->|(t&_&_&Hk& ->)]].
    + by eapply ss_hit.
    + apply ss_latch.
    + by apply ss_store.
  - rewrite RenderTemplateString_tset. apply ss_latch.
  - rewrite RenderTemplateFile_tset. apply ss_latch.
  - apply ss_debug.
Qed.

Lemma run_cons op ops w : run (op :: ops) w = run ops (step op w).
Proof. reflexivity. Qed.

Lemma run_snoc ops op w : run (ops ++ [op]) w = step op (run ops w).
Proof. unfold run. by rewrite foldl_snoc. Qed.

Lemma run_app ops1 ops2 w : run (ops1 ++ ops2) w = run ops2 (run ops1 w).
Proof. unfold run. by rewrite foldl_app. Qed.

(** A property of sets kept by every change is kept by every program. *)
Lemma run_preserves (P : TemplateSet L Value Body -> Prop) :
  (forall set set', set_step set set' -> P set -> P set') ->
  forall ops w, P (tset w) -> P (tset (run ops w)).
Proof.
  intros HP ops. induction ops as [|op ops IH]; intros w Hw; [done|].
  rewrite run_cons. apply IH. eapply HP; [apply step_set_step|done].
Qed.

Lemma Ban_fields k n set :
  loader (Ban k n set).2 = loader set /\
  firstTemplateCreated (Ban k n set).2 = firstTemplateCreated set /\
  templateCache (Ban k n set).2 = templateCache set /\
  Debug (Ban k n set).2 = Debug set.
Proof.
  destruct (Ban_cases k n set) as [[_ ->]|[(_&_& ->)|[(_&_&_& ->)|(_&_&_& ->)]]];
    simpl; split_and!; try done; destruct k; done.
Qed.

Lemma set_step_loader set set' : set_step set set' -> loader set' = loader set.
Proof. destruct 1; try done. apply Ban_fields. Qed.

Lemma set_step_latch set set' :
  set_step set set' ->
  firstTemplateCreated set = true -> firstTemplateCreated set' = true.
Proof.
  destruct 1; try done. intros Hl.
  destruct (Ban_fields k n set) as (_ & -> & _). done.
Qed.

Lemma set_step_cache set set' key t :
  set_step set set' ->
  templateCache set !! key = Some t -> templateCache set' !! key = Some t.
Proof.
  destruct 1 as [k n|b|key' Hk| |key' t' Hk]; try done.
  - destruct (Ban_fields k n set) as (_ & _ & -> & _). done.
  - simpl. intros Ht. rewrite lookup_insert_ne; [done|]. congruence.
Qed.

Lemma set_step_cache_latched set set' :
  set_step set set' -> cache_latched set -> cache_latched set'.
Proof.
  unfold cache_latched.
  destruct 1 as [k n|b|key' Hk| |key' t' Hk]; try done.
  destruct (Ban_fields k n set) as (_ & -> & -> & _). done.
Qed.

Lemma run_loader ops w : loader (tset (run ops w)) = loader (tset w).
Proof.
  apply (run_preserves (fun set => loader set = loader (tset w))); [|done].
  intros set set' Hs <-. by apply set_step_loader.
Qed.

Lemma run_latch ops w :
  firstTemplateCreated (tset w) = true ->
  firstTemplateCreated (tset (run ops w)) = true.
Proof.
  apply (run_preserves (fun set => firstTemplateCreated set = true)).
  intros set set'. apply set_step_latch.
Qed.

Lemma run_cache ops w key t :
  templateCache (tset w) !! key = Some t ->
  templateCache (tset (run ops w)) !! key = Some t.
Proof.
  apply (run_preserves (fun set => templateCache set !! key = Some t)).
  intros set set' Hs. by apply set_step_cache.
Qed.

Lemma run_cache_latched ops (nm : string) (l : L) :
  cache_latched (tset (run ops (newWorld nm l))).
Proof.
  apply (run_preserves cache_latched).
  - intros set set'. apply set_step_cache_latched.
  - by intros _.
Qed.


Lemma run_config_only ops w :
  config_only ops = true ->
  firstTemplateCreated (tset (run ops w)) = firstTemplateCreated (tset w).
Proof.
  revert w. induction ops as [|op ops IH]; intros w Hc; [done|].
  simpl in Hc. apply andb_prop in Hc as [Hop Hc].
  rewrite run_cons, IH by done.
  destruct op as [n|n| | | | | |b]; try done; simpl.
  - apply (Ban_fields Tag).
  - apply (Ban_fields Filter).
Qed.

Lemma call_latch (c : Call) w t :
  cache_latched (tset w) ->
  (call c w).1 = Ok t ->
  firstTemplateCreated (tset (call c w).2) = true.
Proof.
  intros Hinv Hok. destruct c as [s|f|f]; simpl in *.
  - by rewrite FromString_tset.
  - by rewrite FromFile_tset.
  - destruct (FromCache_tset_cases f w) as [[-> [t' Hk]]|[->|(t'&_&_&_& ->)]];
      try done.
    destruct (firstTemplateCreated (tset w)) eqn:Hl; [done|].
    rewrite Hinv in Hk by done. by rewrite lookup_empty in Hk.
Qed.

Lemma step_compile_latch op w :
  cache_latched (tset w) ->
  is_compile_op op = true ->
  firstTemplateCreated (tset (step op w)) = true.
Proof.
  intros Hinv Hop.
  destruct op as [n|n|s|f|f|s ctx|f ctx|b]; simpl in *; try done.
  - by rewrite FromString_tset.
  - by rewrite FromFile_tset.
  - destruct (FromCache_tset_cases f w) as [[-> [t' Hk]]|[->|(t'&_&_&_& ->)]];
      try done.
    destruct (firstTemplateCreated (tset w)) eqn:Hl; [done|].
    rewrite Hinv in Hk by done. by rewrite lookup_empty in Hk.
  - by rewrite RenderTemplateString_tset.
  - by rewrite RenderTemplateFile_tset.
Qed.

(** A program that makes any FromString, FromFile, FromCache or render
    call leaves the latch set, whatever the calls returned. *)
Lemma run_compile_attempt ops w :
  cache_latched (tset w) ->
  config_only ops = false ->
  firstTemplateCreated (tset (run ops w)) = true.
Proof.
  revert w. induction ops as [|op ops IH]; intros w Hinv Hc; [done|].
  rewrite run_cons. simpl in Hc.
  destruct (is_compile_op op) eqn:Hop; simpl in Hc.
  - apply run_latch. by apply step_compile_latch.
  - apply IH; [|done].
    eapply set_step_cache_latched; [apply step_set_step|done].
Qed.

(** C2 (as amended): on a set built by NewSet on which no FromString,
    FromFile, FromCache or render call has been made yet, banning a
    registered tag (or filter) that is not yet banned succeeds and adds it;
    once any such call has been made, whether it returned a template or an
    error, the ban fails with the frozen-sandbox error and returns the set
    unchanged; in particular the same ban fails in this way after any
    successful FromString, FromFile or FromCache call, whatever is called
    afterwards. *)
Theorem ban_open_until_first_attempt (k : BanKind) (n nm : string) (l : L) ops :
  n ∈ registry k ->
  (config_only ops = true ->
   banned k (tset (run ops (newWorld nm l))) !! n = None ->
   Ban k n (tset (run ops (newWorld nm l))) =
     (None,
      with_banned k (<[n := true]> (banned k (tset (run ops (newWorld nm l)))))
        (tset (run ops (newWorld nm l))))) /\
  (config_only ops = false ->
   Ban k n (tset (run ops (newWorld nm l))) =
     (Some (SandboxFrozen k), tset (run ops (newWorld nm l)))) /\
  (forall (c : Call) t ops',
     (call c (run ops (newWorld nm l))).1 = Ok t ->
     Ban k n (tset (run ops' (call c (run ops (newWorld nm l))).2)) =
       (Some (SandboxFrozen k),
        tset (run ops' (call c (run ops (newWorld nm l))).2))).
Proof.
  intros Hn. split_and!.
  - intros Hc Hb. apply Ban_fresh; try done.
    by rewrite run_config_only.
  - intros Hc. apply Ban_frozen; [done|].
    apply run_compile_attempt; [|done]. by intros _.
  - intros c t ops' Hok. apply Ban_frozen; [done|].
    apply run_latch. eapply call_latch; [|done].
    apply run_cache_latched.
Qed.

(** C3 (as amended): the latch is false in a set built by NewSet; it is
    true after every FromString and FromFile call and after both render
    shortcuts, whether the call returned a template or an error; it is true
    after every FromCache call in debug mode or on a cache miss, again
    whatever the call returned; and no call ever resets it. *)
Theorem latch_set_on_entry :
  (forall (nm : string) (l : L),
     firstTemplateCreated (NewSet nm l : TemplateSet L Value Body) = false) /\
  (forall s w, firstTemplateCreated (tset (FromString s w).2) = true) /\
  (forall f w, firstTemplateCreated (tset (FromFile f w).2) = true) /\
  (forall f w,
     Debug (tset w) = true \/
     templateCache (tset w) !! resolveFilename (tset w) None f = None ->
     firstTemplateCreated (tset (FromCache f w).2) = true) /\
  (forall s ctx w,
     firstTemplateCreated (tset (RenderTemplateString s ctx w).2) = true) /\
  (forall f ctx w,
     firstTemplateCreated (tset (RenderTemplateFile f ctx w).2) = true) /\
  (forall ops w,
     firstTemplateCreated (tset w) = true ->
     firstTemplateCreated (tset (run ops w)) = true).
Proof.
  split_and!.
  - done.
  - intros. by rewrite FromString_tset.
  - intros. by rewrite FromFile_tset.
  - intros f w Hm.
    destruct (FromCache_tset_cases f w) as [[_ [t' Hk]]|[->|(t'&_&_&_& ->)]];
      try done.
    destruct Hm as [Hd|Hm]; [|congruence].
    rewrite FromCache_debug by done. by rewrite FromFile_tset.
  - intros. by rewrite RenderTemplateString_tset.
  - intros. by rewrite RenderTemplateFile_tset.
  - intros ops w. apply run_latch.
Qed.

(** C4 (as amended): for a requesting template that is string-origin,
    resolveFilename returns the requested name itself and does not consult
    the loader; the result is Loader.Abs("", path) exactly when the loader
    resolves that name to itself. *)
Theorem resolveFilename_string_origin set t (path : string) :
  isTplString t = true ->
  resolveFilename set (Some t) path = path /\
  (resolveFilename set (Some t) path = Abs (loader set) "" path <->
   Abs (loader set) "" path = path).
Proof.
  intros Ht. unfold resolveFilename. rewrite Ht. split; [done|].
  split; congruence.
Qed.

(** C9: resolveFilename returns only the path and leaves the set alone;
    its result is the same on any set that holds the same loader, whatever
    the name, globals, debug flag, latch, banned sets and template cache
    are, and it is the same before and after any sequence of calls on the
    set. *)
Theorem resolveFilename_pure (tpl : option (Template Body)) (path : string) :
  (forall set nm (g : gmap string Value) d b bt bf c,
     resolveFilename (mkTemplateSet nm (loader set) g d b bt bf c) tpl path =
     resolveFilename set tpl path) /\
  (forall ops w,
     resolveFilename (tset (run ops w)) tpl path =
     resolveFilename (tset w) tpl path).
Proof.
  split.
  - done.
  - intros ops w. unfold resolveFilename. by rewrite run_loader.
Qed.


(** ** The cache only grows *)

Lemma FromCache_stores f w t w1 :
  Debug (tset w) = false ->
  FromCache f w = (Ok t, w1) ->
  templateCache (tset w1) !! resolveFilename (tset w) None f = Some t.
Proof.
  intros Hd Hc.
  destruct (templateCache (tset w) !! resolveFilename (tset w) None f)
    as [t'|] eqn:Hk.
  - rewrite (FromCache_hit f w t') in Hc by done. by simplify_eq.
  - destruct (FromFile (resolveFilename (tset w) None f)
                (log (EvCacheLookup (resolveFilename (tset w) None f)) w))
      as [[t'|e] w'] eqn:Hf.
    + rewrite (FromCache_miss_compiled f w t' w') in Hc by done.
      simplify_eq. simpl. apply lookup_insert_eq.
    + rewrite (FromCache_miss_failed f w e w') in Hc by done. done.
Qed.

(** C1: when a FromCache call on a set that is not in debug mode returns
    a template, that template is the entry stored under the canonical path
    of the request; after any further sequence of calls the entry under
    that path is still this same template, and every later FromCache call
    made while the set is not in debug mode whose filename resolves to that
    path returns this very template and leaves the set as it is.  At any
    two moments at which the cache holds an entry for a path, it is the
    same entry. *)
Theorem FromCache_entry_stable (f : string) w t w1 :
  Debug (tset w) = false ->
  FromCache f w = (Ok t, w1) ->
  templateCache (tset w1) !! Abs (loader (tset w)) "" f = Some t /\
  (forall ops,
     templateCache (tset (run ops w1)) !! Abs (loader (tset w)) "" f = Some t /\
     forall f',
       Debug (tset (run ops w1)) = false ->
       Abs (loader (tset (run ops w1))) "" f' = Abs (loader (tset w)) "" f ->
       (FromCache f' (run ops w1)).1 = Ok t /\
       tset (FromCache f' (run ops w1)).2 = tset (run ops w1)) /\
  (forall ops ops' key t1 t2,
     templateCache (tset (run ops w)) !! key = Some t1 ->
     templateCache (tset (run (ops ++ ops') w)) !! key = Some t2 ->
     t1 = t2).
Proof.
  intros Hd Hc.
  pose proof (FromCache_stores f w t w1 Hd Hc) as Hs.
  change (resolveFilename (tset w) None f) with (Abs (loader (tset w)) "" f) in Hs.
  split_and!; [done| |].
  - intros ops.
    pose proof (run_cache ops w1 _ _ Hs) as Hr.
    split; [done|]. intros f' Hd' Hf'.
    rewrite (FromCache_hit f' (run ops w1) t); [done|done|].
    by rewrite <- Hf' in Hr.
  - intros ops ops' key t1 t2 H1 H2.
    rewrite run_app in H2.
    rewrite (run_cache ops' (run ops w) key t1 H1) in H2. congruence.
Qed.


(** ** What each call appends to the log *)

Lemma logged_app w w' (evs : list Event) :
  trace w' = trace w ++ evs -> logged w w' = evs.
Proof. unfold logged. intros ->. by rewrite drop_app_length. Qed.

Lemma FromFile_result f w :
  (FromFile f w).1 =
    match fetch (tset w) f with
    | Err err => Err (ErrorPtr {| Filename := f; Sender := "fromfile";
                                  ErrorMsg := error_Error err |})
    | Ok buf =>
        match compile (with_firstTemplateCreated true (tset w)) f false buf with
        | Err e => Err e
        | Ok body => Ok (mkTemplate (next_addr w) f false body)
        end
    end.
Proof.
  destruct (FromFile_cases f w) as [err Hf|buf e Hf Hc|buf body Hf Hc].
  - by rewrite (FromFile_fetch_failed f w err), Hf.
  - by rewrite (FromFile_compile_failed f w buf e), Hf, Hc.
  - by rewrite (FromFile_compiled f w buf body), Hf, Hc.
Qed.

Lemma FromFile_trace f w :
  trace (FromFile f w).2 = trace w ++ fetch_events (tset w) f.
Proof.
  unfold fetch_events.
  destruct (FromFile_cases f w) as [err Hf|buf e Hf Hc|buf body Hf Hc].
  - by rewrite (FromFile_fetch_failed f w err), Hf.
  - by rewrite (FromFile_compile_failed f w buf e), Hf.
  - by rewrite (FromFile_compiled f w buf body), Hf.
Qed.

Lemma FromFile_next_addr f w :
  next_addr (FromFile f w).2 =
    match (FromFile f w).1 with
    | Ok _ => S (next_addr w)
    | Err _ => next_addr w
    end.
Proof.
  destruct (FromFile_cases f w) as [err Hf|buf e Hf Hc|buf body Hf Hc].
  - by rewrite (FromFile_fetch_failed f w err).
  - by rewrite (FromFile_compile_failed f w buf e).
  - by rewrite (FromFile_compiled f w buf body).
Qed.

Lemma FromString_trace s w :
  trace (FromString s w).2 =
    trace w ++ [EvCompile stringOriginName true (String.list_byte_of_string s)].
Proof. unfold FromString, newTemplateString. by rewrite newTemplate_trace. Qed.

Lemma RenderTemplateString_trace s ctx w :
  trace (RenderTemplateString s ctx w).2 =
    trace w ++ [EvCompile stringOriginName true (String.list_byte_of_string s)].
Proof.
  unfold RenderTemplateString.
  pose proof (FromString_trace s (with_set (with_firstTemplateCreated true) w)) as Hs.
  destruct (FromString _ _) as [[t|e] w']; simpl in *; [|done].
  by destruct (Execute _ _ _).
Qed.

Lemma RenderTemplateFile_trace fn ctx w :
  trace (RenderTemplateFile fn ctx w).2 = trace w ++ fetch_events (tset w) fn.
Proof.
  unfold RenderTemplateFile.
  pose proof (FromFile_trace fn (with_set (with_firstTemplateCreated true) w)) as Hs.
  destruct (FromFile _ _) as [[t|e] w']; simpl in *; [|done].
  by destruct (Execute _ _ _).
Qed.

Lemma fetch_events_no_cache set f :
  Forall (fun e => is_cache_event e = false) (fetch_events set f).
Proof.
  unfold fetch_events. destruct (fetch set f); repeat constructor.
Qed.

(** In debug mode no call changes the cache or logs a cache access. *)
Lemma step_debug_no_cache op w :
  Debug (tset w) = true ->
  templateCache (tset (step op w)) = templateCache (tset w) /\
  Forall (fun e => is_cache_event e = false) (logged w (step op w)).
Proof.
  intros Hd.
  destruct op as [n|n|s|f|f|s ctx|f ctx|b]; simpl.
  - split; [apply (Ban_fields Tag)|].
    rewrite (logged_app _ _ []); [constructor|by rewrite app_nil_r].
  - split; [apply (Ban_fields Filter)|].
    rewrite (logged_app _ _ []); [constructor|by rewrite app_nil_r].
  - rewrite FromString_tset. split; [done|].
    erewrite logged_app by apply FromString_trace. repeat constructor.
  - rewrite FromFile_tset. split; [done|].
    erewrite logged_app by apply FromFile_trace. apply fetch_events_no_cache.
  - rewrite FromCache_debug by done. rewrite FromFile_tset. split; [done|].
    erewrite logged_app by apply FromFile_trace. apply fetch_events_no_cache.
  - rewrite RenderTemplateString_tset. split; [done|].
    erewrite logged_app by apply RenderTemplateString_trace. repeat constructor.
  - rewrite RenderTemplateFile_tset. split; [done|].
    erewrite logged_app by apply RenderTemplateFile_trace.
    apply fetch_events_no_cache.
  - split; [done|].
    rewrite (logged_app _ _ []); [constructor|by rewrite app_nil_r].
Qed.

(** C8: in debug mode FromCache is FromFile.  Each of two successive
    FromCache calls for the same filename calls the loader for the resolved
    path and, when the fetch succeeds, the compiler on the fetched source;
    when the first call returns a template the second returns a different
    one compiled from the same source.  No call made in debug mode changes
    the template cache or looks it up. *)
Theorem debug_FromCache_recompiles (f : string) w :
  Debug (tset w) = true ->
  FromCache f w = FromFile f w /\
  logged w (FromCache f w).2 = fetch_events (tset w) f /\
  logged (FromCache f w).2 (FromCache f (FromCache f w).2).2
    = fetch_events (tset w) f /\
  In (EvGet (Abs (loader (tset w)) "" f)) (fetch_events (tset w) f) /\
  (forall buf, fetch (tset w) f = Ok buf ->
     In (EvCompile f false buf) (fetch_events (tset w) f)) /\
  (forall t1, (FromCache f w).1 = Ok t1 ->
     exists t2, (FromCache f (FromCache f w).2).1 = Ok t2 /\
       tpl_addr t2 <> tpl_addr t1 /\
       name t2 = name t1 /\ tpl_body t2 = tpl_body t1) /\
  (forall op,
     templateCache (tset (step op w)) = templateCache (tset w) /\
     Forall (fun e => is_cache_event e = false) (logged w (step op w))).
Proof.
  intros Hd.
  assert (Hd1 : Debug (tset (FromFile f w).2) = true)
    by (by rewrite FromFile_tset).
  rewrite (FromCache_debug f w Hd).
  rewrite (FromCache_debug f _ Hd1).
  split_and!.
  - done.
  - apply logged_app, FromFile_trace.
  - erewrite logged_app by apply FromFile_trace.
    by rewrite FromFile_tset.
  - unfold fetch_events. by left.
  - intros buf Hb. unfold fetch_events. rewrite Hb. right; by left.
  - intros t1. rewrite !FromFile_result, FromFile_tset, FromFile_next_addr.
    rewrite FromFile_result.
    change (fetch (with_firstTemplateCreated true (tset w)) f)
      with (fetch (tset w) f).
    change (with_firstTemplateCreated true (with_firstTemplateCreated true (tset w)))
      with (with_firstTemplateCreated true (tset w)).
    destruct (fetch (tset w) f) as [buf|err]; [|done].
    destruct (compile _ _ _ _) as [body|e]; [|done].
    intros [= <-]. eexists. split; [done|]. simpl. split_and!; [lia|done|done].
  - intros op. by apply step_debug_no_cache.
Qed.


(** ** Failing requests *)




(** ** The path that a cache miss fetches *)

(** On a miss the loader is asked for the resolution of the cache key, that
    is for the filename resolved twice. *)
Lemma FromCache_miss_fetch_path f w :
  Debug (tset w) = false ->
  templateCache (tset w) !! Abs (loader (tset w)) "" f = None ->
  In (EvCacheLookup (Abs (loader (tset w)) "" f)) (logged w (FromCache f w).2) /\
  In (EvGet (Abs (loader (tset w)) "" (Abs (loader (tset w)) "" f)))
     (logged w (FromCache f w).2).
Proof.
  intros Hd Hk.
  change (Abs (loader (tset w)) "" f) with (resolveFilename (tset w) None f) in *.
  set (key := resolveFilename (tset w) None f) in *.
  pose proof (FromFile_trace key (log (EvCacheLookup key) w)) as Ht.
  destruct (FromFile key (log (EvCacheLookup key) w)) as [[t|e] w'] eqn:HF.
  - rewrite (FromCache_miss_compiled f w t w') by done. fold key.
    simpl in *. rewrite (logged_app w _
      (EvCacheLookup key :: fetch_events (tset w) key ++ [EvCacheStore key (tpl_addr t)])).
    + split; [by left|]. right. apply in_or_app. left. by left.
    + simpl. rewrite Ht. by rewrite <- !app_assoc.
  - rewrite (FromCache_miss_failed f w e w') by done.
    simpl in *. rewrite (logged_app w _
      (EvCacheLookup key :: fetch_events (tset w) key)).
    + split; [by left|]. right. by left.
    + rewrite Ht. by rewrite <- !app_assoc.
Qed.

(** With a loader whose resolution is idempotent on the filename, the key
    and the fetched path agree. *)
Lemma FromCache_miss_idempotent_loader f w :
  Debug (tset w) = false ->
  templateCache (tset w) !! Abs (loader (tset w)) "" f = None ->
  Abs (loader (tset w)) "" (Abs (loader (tset w)) "" f) = Abs (loader (tset w)) "" f ->
  In (EvGet (Abs (loader (tset w)) "" f)) (logged w (FromCache f w).2).
Proof.
  intros Hd Hk Hi. rewrite <- Hi at 1. by apply FromCache_miss_fetch_path.
Qed.

End Theory.

(** * The properties on the test doubles *)

(** C6: with a loader that resolves ["page.txt"] to ["/tpl/page.txt"] and
    serves that path, FromFile and FromCache in debug mode return the
    template, while FromCache outside debug mode looks the cache up under
    ["/tpl/page.txt"] but asks the loader for ["/tpl//tpl/page.txt"], the
    key resolved once more, and fails. *)
Theorem FromCache_fetches_key_resolved_again :
  Abs prefixLoader "" "page.txt" = "/tpl/page.txt" /\
  (FromFile "page.txt" (demoWorld prefixLoader)).1
    = Ok (mkTemplate 0 "page.txt" false (String.list_byte_of_string "hello")) /\
  (FromCache "page.txt" (with_set (with_Debug true) (demoWorld prefixLoader))).1
    = Ok (mkTemplate 0 "page.txt" false (String.list_byte_of_string "hello")) /\
  (FromCache "page.txt" (demoWorld prefixLoader)).1
    = Err (ErrorPtr {| Filename := "/tpl/page.txt";
                       Sender := "fromfile";
                       ErrorMsg := "open /tpl//tpl/page.txt: no such file or directory" |}) /\
  trace (FromCache "page.txt" (demoWorld prefixLoader)).2
    = [EvCacheLookup "/tpl/page.txt"; EvGet "/tpl//tpl/page.txt"] /\
  templateCache (tset (FromCache "page.txt" (demoWorld prefixLoader)).2) = ∅.
Proof. split_and!; by_compute. Qed.

(** ** Inputs on which a stated property fails *)

(** A FromFile call whose fetch fails, and a FromCache call whose compile
    fails, both on a fresh set: each returns an error and leaves the latch
    set. *)
Lemma failed_compile_sets_latch :
  firstTemplateCreated (tset (demoWorld flatLoader)) = false /\
  (FromFile "missing.txt" (demoWorld flatLoader)).1
    = Err (ErrorPtr {| Filename := "missing.txt"; Sender := "fromfile";
                       ErrorMsg := "open missing.txt: no such file or directory" |}) /\
  firstTemplateCreated (tset (FromFile "missing.txt" (demoWorld flatLoader)).2)
    <> false /\
  (FromCache "empty.txt" (demoWorld flatLoader)).1
    = Err (ErrorPtr {| Filename := "empty.txt"; Sender := "parser";
                       ErrorMsg := "empty template" |}) /\
  firstTemplateCreated (tset (FromCache "empty.txt" (demoWorld flatLoader)).2)
    <> false.
Proof.
  split_and!; try by_compute; intros Hl; vm_compute in Hl; discriminate.
Qed.

(** A template compiled by FromString asks for ["page.txt"]: the result is
    ["page.txt"], not the loader's top-level resolution ["/tpl/page.txt"]. *)
Lemma string_origin_not_resolved :
  (FromString "hello" (demoWorld prefixLoader)).1 = Ok stringTpl /\
  isTplString stringTpl = true /\
  resolveFilename (demoSet prefixLoader) (Some stringTpl) "page.txt" = "page.txt" /\
  Abs (loader (demoSet prefixLoader)) "" "page.txt" = "/tpl/page.txt" /\
  resolveFilename (demoSet prefixLoader) (Some stringTpl) "page.txt"
    <> Abs (loader (demoSet prefixLoader)) "" "page.txt".
Proof.
  split_and!; try by_compute.
  intros Hr; vm_compute in Hr; discriminate.
Qed.

(** FromFile("missing.txt") fails on a fresh set at the fetch: nothing has
    been compiled, the tag ["ssi"] is registered and not banned, yet
    banning it is rejected as frozen. *)
Lemma ban_frozen_after_failed_FromFile :
  (FromFile "missing.txt" (demoWorld flatLoader)).1
    = Err (ErrorPtr {| Filename := "missing.txt"; Sender := "fromfile";
                       ErrorMsg := "open missing.txt: no such file or directory" |}) /\
  trace (FromFile "missing.txt" (demoWorld flatLoader)).2 = [EvGet "missing.txt"] /\
  "ssi" ∈ registry (L := MemLoader) (Value := string) (Body := bytes) Tag /\
  bannedTags (tset (FromFile "missing.txt" (demoWorld flatLoader)).2) !! "ssi"
    = None /\
  BanTag "ssi" (tset (FromFile "missing.txt" (demoWorld flatLoader)).2)
    = (Some (SandboxFrozen Tag),
       tset (FromFile "missing.txt" (demoWorld flatLoader)).2) /\
  (BanTag "ssi" (tset (FromFile "missing.txt" (demoWorld flatLoader)).2)).1
    <> None.
Proof.
  split_and!; try by_compute; try by_decide;
    intros Hb; vm_compute in Hb; discriminate.
Qed.

(** After BanTag("ssi") and a FromString, the tag ["ssi"] is in the banned
    set, yet banning it again reports the frozen sandbox, not that it is
    already banned. *)
Lemma banned_name_after_freeze :
  is_Some (bannedTags
             (tset (run [OpBanTag "ssi"; OpFromString "hello"]
                      (demoWorld prefixLoader))) !! "ssi") /\
  (BanTag "ssi"
     (tset (run [OpBanTag "ssi"; OpFromString "hello"]
              (demoWorld prefixLoader)))).1 = Some (SandboxFrozen Tag) /\
  (BanTag "ssi"
     (tset (run [OpBanTag "ssi"; OpFromString "hello"]
              (demoWorld prefixLoader)))).1 <> Some (AlreadyBanned Tag "ssi").
Proof.
  split_and!.
  - exists true. by_compute.
  - by_compute.
  - intros Hb; vm_compute in Hb; discriminate.
Qed.

(** ** The properties at concrete inputs *)

Lemma FromCache_entry_stable_witness :
  Debug (tset (demoWorld flatLoader)) = false /\
  FromCache "page.txt" (demoWorld flatLoader)
    = (Ok pageTpl, (FromCache "page.txt" (demoWorld flatLoader)).2) /\
  (FromCache "page.txt"
     (run [OpFromString "x"; OpFromCache "empty.txt"; OpBanTag "ssi"]
        (FromCache "page.txt" (demoWorld flatLoader)).2)).1 = Ok pageTpl.
Proof.
  assert (Hd : Debug (tset (demoWorld flatLoader)) = false) by by_compute.
  assert (Hc : FromCache "page.txt" (demoWorld flatLoader)
               = (Ok pageTpl, (FromCache "page.txt" (demoWorld flatLoader)).2))
    by by_compute.
  destruct (FromCache_entry_stable "page.txt" _ _ _ Hd Hc) as (_ & Hlater & _).
  split_and!; [exact Hd|exact Hc|].
  apply (Hlater [OpFromString "x"; OpFromCache "empty.txt"; OpBanTag "ssi"]);
    by_compute.
Defined.

Lemma ban_open_until_first_attempt_witness :
  "ssi" ∈ registry (L := MemLoader) (Value := string) (Body := bytes) Tag /\
  (Ban Tag "ssi"
     (tset (run [OpBanFilter "safe"] (newWorld "demo" flatLoader)))).1 = None /\
  (Ban Tag "ssi"
     (tset (run [OpBanFilter "safe"; OpFromFile "missing.txt"]
              (newWorld "demo" flatLoader)))).1 = Some (SandboxFrozen Tag) /\
  (Ban Tag "ssi"
     (tset (run [OpBanTag "ssi"]
        (call (CallFromCache "page.txt")
           (run [OpBanFilter "safe"] (newWorld "demo" flatLoader))).2))).1
    = Some (SandboxFrozen Tag).
Proof.
  assert (Hn : "ssi" ∈ registry (L := MemLoader) (Value := string)
                 (Body := bytes) Tag) by by_decide.
  destruct (ban_open_until_first_attempt Tag "ssi" "demo" flatLoader
              [OpBanFilter "safe"] Hn) as (Hopen & _ & Hfrozen).
  destruct (ban_open_until_first_attempt Tag "ssi" "demo" flatLoader
              [OpBanFilter "safe"; OpFromFile "missing.txt"] Hn)
    as (_ & Hattempt & _).
  split_and!; [exact Hn| | |].
  - rewrite Hopen; [reflexivity|by_compute|by_compute].
  - rewrite Hattempt; [reflexivity|by_compute].
  - rewrite (Hfrozen (CallFromCache "page.txt") pageTpl [OpBanTag "ssi"]);
      [reflexivity|by_compute].
Defined.

Lemma latch_set_on_entry_witness :
  templateCache (tset (demoWorld prefixLoader))
    !! resolveFilename (tset (demoWorld prefixLoader)) None "missing.txt" = None /\
  (FromCache "missing.txt" (demoWorld prefixLoader)).1 = Err missingErr /\
  firstTemplateCreated (tset (FromCache "missing.txt" (demoWorld prefixLoader)).2)
    = true.
Proof.
  assert (Hk : templateCache (tset (demoWorld prefixLoader))
                 !! resolveFilename (tset (demoWorld prefixLoader)) None "missing.txt"
               = None) by by_compute.
  destruct (latch_set_on_entry (L := MemLoader) (Value := string) (Body := bytes))
    as (_ & _ & _ & Hcache & _).
  split_and!; [exact Hk|by_compute|].
  apply Hcache. right. exact Hk.
Defined.

Lemma resolveFilename_string_origin_witness :
  isTplString stringTpl = true /\
  resolveFilename (demoSet prefixLoader) (Some stringTpl) "page.txt" = "page.txt".
Proof.
  assert (Ht : isTplString stringTpl = true) by by_compute.
  split; [exact Ht|].
  exact (proj1 (resolveFilename_string_origin (demoSet prefixLoader) stringTpl
                  "page.txt" Ht)).
Defined.



Example FromCache_fetch_failure_tag :
  (FromCache "missing.txt" (demoWorld prefixLoader)).1 = Err missingErr /\
  Filename missingError = Abs prefixLoader "" "missing.txt" /\
  Sender missingError = "fromfile".
Proof. split_and!; by_compute. Qed.

Lemma Ban_checks_then_adds_witness :
  "ssi" ∈ registry (L := MemLoader) (Value := string) (Body := bytes) Tag /\
  firstTemplateCreated (Ban Tag "ssi" (demoSet flatLoader)).2 = false /\
  is_Some (banned Tag (Ban Tag "ssi" (demoSet flatLoader)).2 !! "ssi") /\
  Ban Tag "ssi" (Ban Tag "ssi" (demoSet flatLoader)).2
    = (Some (AlreadyBanned Tag "ssi"), (Ban Tag "ssi" (demoSet flatLoader)).2).
Proof.
  assert (Hn : "ssi" ∈ registry (L := MemLoader) (Value := string)
                 (Body := bytes) Tag) by by_decide.
  assert (Hl : firstTemplateCreated (Ban Tag "ssi" (demoSet flatLoader)).2 = false)
    by by_compute.
  assert (Hb : is_Some (banned Tag (Ban Tag "ssi" (demoSet flatLoader)).2 !! "ssi"))
    by (exists true; by_compute).
  destruct (Ban_checks_then_adds Tag "ssi" (Ban Tag "ssi" (demoSet flatLoader)).2)
    as (_ & Halready & _).
  split_and!; [exact Hn|exact Hl|exact Hb|].
  exact (Halready Hn Hl Hb).
Defined.

Lemma debug_FromCache_recompiles_witness :
  Debug (tset (with_set (with_Debug true) (demoWorld flatLoader))) = true /\
  FromCache "page.txt" (with_set (with_Debug true) (demoWorld flatLoader))
    = FromFile "page.txt" (with_set (with_Debug true) (demoWorld flatLoader)) /\
  logged (FromCache "page.txt" (with_set (with_Debug true) (demoWorld flatLoader))).2
    (FromCache "page.txt"
       (FromCache "page.txt" (with_set (with_Debug true) (demoWorld flatLoader))).2).2
    = fetch_events (tset (with_set (with_Debug true) (demoWorld flatLoader)))
        "page.txt".
Proof.
  assert (Hd : Debug (tset (with_set (with_Debug true) (demoWorld flatLoader)))
               = true) by by_compute.
  destruct (debug_FromCache_recompiles "page.txt" _ Hd) as (Hff & _ & Hsecond & _).
  split_and!; [exact Hd|exact Hff|exact Hsecond].
Defined.

Example debug_FromCache_twice :
  trace (run [OpFromCache "page.txt"; OpFromCache "page.txt"]
           (with_set (with_Debug true) (demoWorld flatLoader)))
  = [EvGet "page.txt";
     EvCompile "page.txt" false (String.list_byte_of_string "hello");
     EvGet "page.txt";
     EvCompile "page.txt" false (String.list_byte_of_string "hello")].
Proof. by_compute. Qed.

Example cached_FromCache_twice :
  trace (run [OpFromCache "page.txt"; OpFromCache "page.txt"]
           (demoWorld flatLoader))
  = [EvCacheLookup "page.txt";
     EvGet "page.txt";
     EvCompile "page.txt" false (String.list_byte_of_string "hello");
     EvCacheStore "page.txt" 0;
     EvCacheLookup "page.txt"].
Proof. by_compute. Qed.

(** * Further properties of the methods *)

Section More.

Context {L Value Body : Type} `{!TemplateLoader L} `{!Engine L Value Body}.

Implicit Types (set : TemplateSet L Value Body) (w : World L Value Body)
  (t : Template Body) (op : Op Value) (ops : list (Op Value)).

(** ** The sandbox *)

Lemma Ban_other_fields k n set :
  set_name (Ban k n set).2 = set_name set /\
  Globals (Ban k n set).2 = Globals set.
Proof.
  destruct (Ban_cases k n set) as [[_ ->]|[(_&_& ->)|[(_&_&_& ->)|(_&_&_& ->)]]];
    simpl; split; try done; destruct k; done.
Qed.

Lemma Ban_banned_frozen k' n set k :
  firstTemplateCreated set = true ->
  banned k (Ban k' n set).2 = banned k set.
Proof.
  intros Hl.
  destruct (Ban_cases k' n set)
    as [[_ ->]|[(_&_& ->)|[(_&?&_&_)|(_&?&_&_)]]]; try done; congruence.
Qed.

Lemma set_step_banned_frozen set set' k :
  set_step set set' ->
  firstTemplateCreated set = true ->
  banned k set' = banned k set.
Proof.
  destruct 1 as [k' n|b|key Hk| |key t Hk]; intros Hl;
    try (destruct k; done).
  by apply Ban_banned_frozen.
Qed.

(** Once the latch is set, no sequence of calls changes either banned
    set. *)
Theorem sandbox_frozen_after_latch ops w :
  firstTemplateCreated (tset w) = true ->
  bannedTags (tset (run ops w)) = bannedTags (tset w) /\
  bannedFilters (tset (run ops w)) = bannedFilters (tset w).
Proof.
  intros Hl.
  assert (Hp : firstTemplateCreated (tset (run ops w)) = true /\
               forall k, banned k (tset (run ops w)) = banned k (tset w)).
  { apply (run_preserves (fun set => firstTemplateCreated set = true /\
             forall k, banned k set = banned k (tset w))); [|done].
    intros set set' Hs [Hl' Hb]. split; [by eapply set_step_latch|].
    intros k. rewrite <- Hb. by apply set_step_banned_frozen. }
  destruct Hp as [_ Hb]. split; [apply (Hb Tag)|apply (Hb Filter)].
Qed.

Lemma Ban_banned_grows k' n' set k n b :
  banned k set !! n = Some b ->
  banned k (Ban k' n' set).2 !! n = Some b.
Proof.
  intros Hb.
  destruct (Ban_cases k' n' set)
    as [[_ ->]|[(_&_& ->)|[(_&_&_& ->)|(_&_&Hn& ->)]]]; try done.
  destruct k, k'; simpl in *; try done;
    (rewrite lookup_insert_ne; [done|congruence]).
Qed.

(** The banned sets only grow: a name that is banned stays banned, under
    any sequence of calls. *)
Theorem banned_append_only ops w (k : BanKind) (n : string) (b : bool) :
  banned k (tset w) !! n = Some b ->
  banned k (tset (run ops w)) !! n = Some b.
Proof.
  apply (run_preserves (fun set => banned k set !! n = Some b)).
  intros set set' Hs Hb.
  destruct Hs as [k' n'|d|key Hk| |key t Hk]; try (destruct k; done).
  by apply Ban_banned_grows.
Qed.

(** On a set built by NewSet every banned name is a registered one, and it
    is mapped to [true]. *)
Theorem banned_within_registry ops (nm : string) (l : L) (k : BanKind)
    (n : string) (b : bool) :
  banned k (tset (run ops (newWorld nm l))) !! n = Some b ->
  n ∈ registry k /\ b = true.
Proof.
  revert k n b.
  apply (run_preserves (fun set => forall k n b,
           banned k set !! n = Some b -> n ∈ registry k /\ b = true)).
  - intros set set' Hs Hinv k n b.
    destruct Hs as [k' n'|d|key Hk| |key t Hk];
      try (intros Hb; apply (Hinv k n b); destruct k; exact Hb).
    destruct (Ban_cases k' n' set)
      as [[_ ->]|[(_&_& ->)|[(_&_&_& ->)|(Hr&_&Hn& ->)]]]; try apply Hinv.
    destruct k, k'; simpl in *; try apply (Hinv Tag); try apply (Hinv Filter);
      (destruct (decide (n' = n)) as [->|Hne];
       [rewrite lookup_insert_eq; intros [= <-]; done
       |rewrite lookup_insert_ne by done;
        first [apply (Hinv Tag)|apply (Hinv Filter)]]).
  - intros k n b. destruct k; simpl; by rewrite lookup_empty.
Qed.

(** A ban succeeds exactly when the name is registered, no template has
    been created and the name is not yet banned. *)
Theorem Ban_succeeds_iff (k : BanKind) (n : string) set :
  (Ban k n set).1 = None <->
  n ∈ registry k /\ firstTemplateCreated set = false /\ banned k set !! n = None.
Proof.
  split.
  - destruct (Ban_cases k n set)
      as [[_ ->]|[(_&_& ->)|[(_&_&_& ->)|(?&?&?& ->)]]]; done.
  - intros (Hn & Hl & Hb). by rewrite Ban_fresh.
Qed.

(** Banning a name twice in a row before any template exists: the first
    ban succeeds and enlarges the banned set by one name, the second is
    rejected as already banned and changes nothing. *)
Theorem Ban_twice (k : BanKind) (n : string) set :
  n ∈ registry k ->
  firstTemplateCreated set = false ->
  banned k set !! n = None ->
  (Ban k n set).1 = None /\
  size (banned k (Ban k n set).2) = S (size (banned k set)) /\
  Ban k n (Ban k n set).2 = (Some (AlreadyBanned k n), (Ban k n set).2).
Proof.
  intros Hn Hl Hb. rewrite (Ban_fresh k n set) by done. simpl.
  split_and!; [done| |].
  - destruct k; simpl; by rewrite map_size_insert_None.
  - apply Ban_already; [done|by destruct k|].
    destruct k; simpl; rewrite lookup_insert_eq; eauto.
Qed.

(** A ban changes the answer of a later ban only when it is the same ban. *)
Lemma Ban_independent k1 n1 k2 n2 set :
  (k1, n1) <> (k2, n2) ->
  banned k2 (Ban k1 n1 set).2 !! n2 = banned k2 set !! n2.
Proof.
  intros Hne.
  destruct (Ban_cases k1 n1 set)
    as [[_ ->]|[(_&_& ->)|[(_&_&_& ->)|(_&_&_& ->)]]]; try done.
  destruct k1, k2; simpl; try done;
    (rewrite lookup_insert_ne; [done|congruence]).
Qed.

Lemma Ban_result k n set :
  Ban k n set =
    (if bool_decide (n ∈ registry k) then
       if firstTemplateCreated set then Some (SandboxFrozen k)
       else match banned k set !! n with
            | Some _ => Some (AlreadyBanned k n)
            | None => None
            end
     else Some (UnknownName k n),
     if bool_decide (n ∈ registry k) && negb (firstTemplateCreated set)
        && bool_decide (banned k set !! n = None)
     then with_banned k (<[n := true]> (banned k set)) set
     else set).
Proof.
  destruct (Ban_cases k n set)
    as [[Hn ->]|[(Hn&Hl& ->)|[(Hn&Hl&[b Hb]& ->)|(Hn&Hl&Hb& ->)]]].
  - by rewrite bool_decide_eq_false_2.
  - by rewrite bool_decide_eq_true_2, Hl.
  - rewrite bool_decide_eq_true_2, Hl, Hb by done. simpl.
    by rewrite ?bool_decide_eq_false_2 by done.
  - rewrite bool_decide_eq_true_2, Hl, Hb by done. simpl.
    by rewrite ?bool_decide_eq_true_2 by done.
Qed.

(** Two bans commute: in either order they leave the same set, and a ban
    of a different name or kind returns what it would have returned
    alone. *)
Theorem Ban_commute (k1 k2 : BanKind) (n1 n2 : string) set :
  (Ban k2 n2 (Ban k1 n1 set).2).2 = (Ban k1 n1 (Ban k2 n2 set).2).2 /\
  ((k1, n1) <> (k2, n2) ->
   (Ban k2 n2 (Ban k1 n1 set).2).1 = (Ban k2 n2 set).1).
Proof.
  destruct (decide ((k1, n1) = (k2, n2))) as [Heq|Hne].
  { simplify_eq. split; [done|]. intros Hne. by destruct Hne. }
  assert (Hne' : (k2, n2) <> (k1, n1)) by congruence.
  pose proof (Ban_independent k1 n1 k2 n2 set Hne) as H12.
  pose proof (Ban_independent k2 n2 k1 n1 set Hne') as H21.
  destruct (Ban_fields k1 n1 set) as (_ & Hl1 & _).
  destruct (Ban_fields k2 n2 set) as (_ & Hl2 & _).
  split.
  - rewrite (Ban_result k2 n2 (Ban k1 n1 set).2).
    rewrite (Ban_result k1 n1 (Ban k2 n2 set).2).
    cbn [snd]. rewrite H12, H21, Hl1, Hl2.
    rewrite (Ban_result k1 n1 set), (Ban_result k2 n2 set). cbn [snd].
    destruct (bool_decide (n1 ∈ registry k1)), (bool_decide (n2 ∈ registry k2)),
      (firstTemplateCreated set), (bool_decide (banned k1 set !! n1 = None)),
      (bool_decide (banned k2 set !! n2 = None)); cbn [andb negb]; try done.
    destruct k1, k2; simpl; try done.
    + unfold with_bannedTags; simpl. f_equal. apply insert_insert_ne. congruence.
    + unfold with_bannedFilters; simpl. f_equal. apply insert_insert_ne. congruence.
  - intros _. rewrite (Ban_result k2 n2 (Ban k1 n1 set).2), (Ban_result k2 n2 set).
    cbn [fst]. by rewrite H12, Hl1.
Qed.

(** ** What no method changes *)

Lemma set_step_static set set' :
  set_step set set' ->
  set_name set' = set_name set /\ Globals set' = Globals set.
Proof. destruct 1; try done. apply Ban_other_fields. Qed.

Lemma step_Debug op w :
  is_SetDebug op = false -> Debug (tset (step op w)) = Debug (tset w).
Proof.
  destruct op as [n|n|s|f|f|s ctx|f ctx|b]; simpl; intros Hop; try done.
  - apply (Ban_fields Tag).
  - apply (Ban_fields Filter).
  - by rewrite FromString_tset.
  - by rewrite FromFile_tset.
  - by destruct (FromCache_tset_cases f w) as [[-> _]|[->|(t&_&_&_& ->)]].
  - by rewrite RenderTemplateString_tset.
  - by rewrite RenderTemplateFile_tset.
Qed.

(** No method changes the name of the set, its loader or its globals, and
    the debug flag changes only when the caller assigns it. *)
Theorem methods_keep_configuration ops w :
  set_name (tset (run ops w)) = set_name (tset w) /\
  loader (tset (run ops w)) = loader (tset w) /\
  Globals (tset (run ops w)) = Globals (tset w) /\
  (forallb (fun op => negb (is_SetDebug op)) ops = true ->
   Debug (tset (run ops w)) = Debug (tset w)).
Proof.
  split_and!.
  - apply (run_preserves (fun set => set_name set = set_name (tset w))); [|done].
    intros set set' Hs <-. by apply set_step_static.
  - apply run_loader.
  - apply (run_preserves (fun set => Globals set = Globals (tset w))); [|done].
    intros set set' Hs <-. by apply set_step_static.
  - revert w. induction ops as [|op ops IH]; intros w Hops; [done|].
    simpl in Hops. apply andb_prop in Hops as [Hop Hops].
    rewrite run_cons, IH by done. apply step_Debug.
    by destruct (is_SetDebug op).
Qed.

(** On a set built by NewSet, as soon as the cache holds any template
    every ban of a registered name is rejected as frozen. *)
Theorem cached_template_freezes_sandbox ops (nm : string) (l : L)
    (key : string) (k : BanKind) (n : string) :
  is_Some (templateCache (tset (run ops (newWorld nm l))) !! key) ->
  n ∈ registry k ->
  Ban k n (tset (run ops (newWorld nm l)))
    = (Some (SandboxFrozen k), tset (run ops (newWorld nm l))).
Proof.
  intros [t Hk] Hn. apply Ban_frozen; [done|].
  pose proof (run_cache_latched ops nm l) as Hinv.
  destruct (firstTemplateCreated (tset (run ops (newWorld nm l)))) eqn:Hl; [done|].
  rewrite Hinv in Hk by done. by rewrite lookup_empty in Hk.
Qed.

(** ** FromFile does not cache *)

(** Calling FromFile again for the same filename gives the same error
    again, without allocating anything, or a new template with the same
    name and body at the next address; the set is left as the first call
    left it. *)
Theorem FromFile_repeatable (f : string) w :
  tset (FromFile f (FromFile f w).2).2 = tset (FromFile f w).2 /\
  (forall e, (FromFile f w).1 = Err e ->
     (FromFile f (FromFile f w).2).1 = Err e /\
     next_addr (FromFile f w).2 = next_addr w) /\
  (forall t1, (FromFile f w).1 = Ok t1 ->
     name t1 = f /\ isTplString t1 = false /\
     exists t2, (FromFile f (FromFile f w).2).1 = Ok t2 /\
       tpl_addr t2 = S (tpl_addr t1) /\
       name t2 = name t1 /\ tpl_body t2 = tpl_body t1).
Proof.
  split_and!.
  - by rewrite !FromFile_tset.
  - intros e. rewrite FromFile_next_addr, !FromFile_result, FromFile_tset.
    change (fetch (with_firstTemplateCreated true (tset w)) f)
      with (fetch (tset w) f).
    change (with_firstTemplateCreated true (with_firstTemplateCreated true (tset w)))
      with (with_firstTemplateCreated true (tset w)).
    destruct (fetch (tset w) f) as [buf|err]; [|done].
    by destruct (compile _ _ _ _).
  - intros t1. rewrite !FromFile_result, FromFile_tset, FromFile_next_addr.
    rewrite FromFile_result.
    change (fetch (with_firstTemplateCreated true (tset w)) f)
      with (fetch (tset w) f).
    change (with_firstTemplateCreated true (with_firstTemplateCreated true (tset w)))
      with (with_firstTemplateCreated true (tset w)).
    destruct (fetch (tset w) f) as [buf|err]; [|done].
    destruct (compile _ _ _ _) as [body|e]; [|done].
    intros [= <-]. simpl. split_and!; [done|done|]. by eexists.
Qed.

(** ** The cache, call by call *)

Lemma FromCache_pair f w :
  FromCache f w = ((FromCache f w).1, (FromCache f w).2).
Proof. by destruct (FromCache f w). Qed.

(** Outside debug mode a FromCache call is a hit, a failed miss or a
    stored miss. *)
Lemma FromCache_world_cases f w :
  Debug (tset w) = false ->
  (exists t,
     templateCache (tset w) !! resolveFilename (tset w) None f = Some t /\
     FromCache f w = (Ok t, log (EvCacheLookup (resolveFilename (tset w) None f)) w)) \/
  (templateCache (tset w) !! resolveFilename (tset w) None f = None /\
   (exists e, (FromCache f w).1 = Err e) /\
   tset (FromCache f w).2 = with_firstTemplateCreated true (tset w) /\
   trace (FromCache f w).2 =
     trace w ++ EvCacheLookup (resolveFilename (tset w) None f) ::
       fetch_events (tset w) (resolveFilename (tset w) None f)) \/
  (templateCache (tset w) !! resolveFilename (tset w) None f = None /\
   exists t,
     (FromCache f w).1 = Ok t /\
     name t = resolveFilename (tset w) None f /\
     isTplString t = false /\
     tset (FromCache f w).2 =
       with_templateCache
         (<[resolveFilename (tset w) None f := t]> (templateCache (tset w)))
         (with_firstTemplateCreated true (tset w)) /\
     trace (FromCache f w).2 =
       trace w ++ EvCacheLookup (resolveFilename (tset w) None f) ::
         fetch_events (tset w) (resolveFilename (tset w) None f) ++
         [EvCacheStore (resolveFilename (tset w) None f) (tpl_addr t)]).
Proof.
  intros Hd. set (key := resolveFilename (tset w) None f).
  destruct (templateCache (tset w) !! key) as [t|] eqn:Hk.
  { left. exists t. split; [done|]. by apply FromCache_hit. }
  right.
  pose proof (FromFile_tset key (log (EvCacheLookup key) w)) as Hs.
  pose proof (FromFile_trace key (log (EvCacheLookup key) w)) as Ht.
  pose proof (FromFile_result key (log (EvCacheLookup key) w)) as Hr.
  destruct (FromFile key (log (EvCacheLookup key) w)) as [[t|e] w'] eqn:HF;
    simpl in Hs, Ht, Hr.
  - right. split; [done|]. exists t.
    rewrite (FromCache_miss_compiled f w t w') by done. fold key. simpl.
    assert (Hnt : name t = key /\ isTplString t = false).
    { revert Hr. destruct (fetch _ _); [|done].
      destruct (compile _ _ _ _); [|done]. by intros [= ->]. }
    destruct Hnt as [Hn Hi].
    split_and!; try done.
    + by rewrite Hs.
    + rewrite Ht. by rewrite <- !app_assoc.
  - left. split; [done|].
    rewrite (FromCache_miss_failed f w e w') by done. simpl.
    split_and!; [by eexists|done|].
    rewrite Ht. by rewrite <- !app_assoc.
Qed.

(** A FromCache call that returned a template is followed by a hit: the
    same call again resolves the filename, looks the cache up under the
    canonical path and returns that template; it logs that lookup and
    nothing else (no loader.Get, no compile, no store), and leaves the set
    and the allocator as they were. *)
Theorem FromCache_again_is_hit (f : string) w t :
  Debug (tset w) = false ->
  (FromCache f w).1 = Ok t ->
  FromCache f (FromCache f w).2 =
    (Ok t, log (EvCacheLookup (Abs (loader (tset w)) "" f)) (FromCache f w).2) /\
  logged (FromCache f w).2 (FromCache f (FromCache f w).2).2
    = [EvCacheLookup (Abs (loader (tset w)) "" f)] /\
  tset (FromCache f (FromCache f w).2).2 = tset (FromCache f w).2 /\
  next_addr (FromCache f (FromCache f w).2).2 = next_addr (FromCache f w).2.
Proof.
  intros Hd Hok.
  assert (Hc : FromCache f w = (Ok t, (FromCache f w).2))
    by (by rewrite (FromCache_pair f w) at 1; rewrite Hok).
  pose proof (FromCache_stores f w t _ Hd Hc) as Hk.
  pose proof (step_set_step (OpFromCache f) w) as Hs. simpl in Hs.
  pose proof (step_Debug (OpFromCache f) w eq_refl) as Hd'. simpl in Hd'.
  rewrite Hd in Hd'.
  assert (Hkey : resolveFilename (tset (FromCache f w).2) None f
                 = resolveFilename (tset w) None f).
  { unfold resolveFilename. by rewrite (set_step_loader _ _ Hs). }
  assert (Hhit : FromCache f (FromCache f w).2 =
    (Ok t, log (EvCacheLookup (Abs (loader (tset w)) "" f)) (FromCache f w).2)).
  { rewrite (FromCache_hit f (FromCache f w).2 t); [by rewrite Hkey|done|].
    by rewrite Hkey. }
  rewrite Hhit. split_and!; [done|by apply logged_app|done|done].
Qed.

(** Only FromCache outside debug mode touches the cache: every other call
    leaves the cache as it is and neither looks it up nor stores in it. *)
Theorem only_FromCache_touches_cache op w :
  is_FromCache op = false \/ Debug (tset w) = true ->
  templateCache (tset (step op w)) = templateCache (tset w) /\
  Forall (fun e => is_cache_event e = false) (logged w (step op w)).
Proof.
  intros Hop.
  destruct op as [n|n|s|f|f|s ctx|f ctx|b]; simpl.
  - split; [apply (Ban_fields Tag)|].
    rewrite (logged_app _ _ []); [constructor|by rewrite app_nil_r].
  - split; [apply (Ban_fields Filter)|].
    rewrite (logged_app _ _ []); [constructor|by rewrite app_nil_r].
  - rewrite FromString_tset. split; [done|].
    erewrite logged_app by apply FromString_trace. repeat constructor.
  - rewrite FromFile_tset. split; [done|].
    erewrite logged_app by apply FromFile_trace. apply fetch_events_no_cache.
  - destruct Hop as [Hop|Hd]; [done|].
    rewrite FromCache_debug by done. rewrite FromFile_tset. split; [done|].
    erewrite logged_app by apply FromFile_trace. apply fetch_events_no_cache.
  - rewrite RenderTemplateString_tset. split; [done|].
    erewrite logged_app by apply RenderTemplateString_trace. repeat constructor.
  - rewrite RenderTemplateFile_tset. split; [done|].
    erewrite logged_app by apply RenderTemplateFile_trace.
    apply fetch_events_no_cache.
  - split; [done|].
    rewrite (logged_app _ _ []); [constructor|by rewrite app_nil_r].
Qed.

(** ** Every key is stored once *)

Lemma stores_app key (tr1 tr2 : list Event) :
  stores key (tr1 ++ tr2) = stores key tr1 + stores key tr2.
Proof. unfold stores. by rewrite List.filter_app, length_app. Qed.

Lemma stores_cons key (e : Event) (tr : list Event) :
  stores key (e :: tr) = (if is_store key e then 1 else 0) + stores key tr.
Proof. unfold stores. simpl. by destruct (is_store key e). Qed.

Lemma stores_fetch_events key set f : stores key (fetch_events set f) = 0.
Proof. unfold fetch_events. by destruct (fetch set f). Qed.

(** What one call does to the cache and to the stores in the log. *)
Lemma step_cache_cases op w :
  (templateCache (tset (step op w)) = templateCache (tset w) /\
   forall k, stores k (trace (step op w)) = stores k (trace w)) \/
  (exists f t,
     templateCache (tset w) !! Abs (loader (tset w)) "" f = None /\
     templateCache (tset (step op w))
       = <[Abs (loader (tset w)) "" f := t]> (templateCache (tset w)) /\
     name t = Abs (loader (tset w)) "" f /\
     isTplString t = false /\
     forall k, stores k (trace (step op w)) =
       stores k (trace w) +
       (if bool_decide (Abs (loader (tset w)) "" f = k) then 1 else 0)).
Proof.
  destruct op as [n|n|s|f|f|s ctx|f ctx|b]; simpl.
  - left. split; [apply (Ban_fields Tag)|done].
  - left. split; [apply (Ban_fields Filter)|done].
  - left. rewrite FromString_tset, FromString_trace. split; [done|].
    intros k. rewrite stores_app, stores_cons. simpl. unfold stores; simpl; lia.
  - left. rewrite FromFile_tset, FromFile_trace. split; [done|].
    intros k. rewrite stores_app, stores_fetch_events. lia.
  - destruct (Debug (tset w)) eqn:Hd.
    { left. rewrite FromCache_debug by done.
      rewrite FromFile_tset, FromFile_trace. split; [done|].
      intros k. rewrite stores_app, stores_fetch_events. lia. }
    destruct (FromCache_world_cases f w Hd)
      as [(t&Hk&->)|[(Hk&_&->&->)|(Hk&t&_&Hn&Hi&->&->)]].
    + left. split; [done|]. intros k. simpl.
      rewrite stores_app, stores_cons. simpl. unfold stores; simpl; lia.
    + left. split; [done|]. intros k.
      rewrite stores_app, stores_cons, stores_fetch_events. simpl. lia.
    + right. exists f, t. split_and!; try done.
      intros k.
      rewrite stores_app, stores_cons, stores_app, stores_fetch_events, stores_cons.
      simpl. unfold stores; simpl. destruct (bool_decide _); lia.
  - left. rewrite RenderTemplateString_tset, RenderTemplateString_trace.
    split; [done|]. intros k. rewrite stores_app, stores_cons. simpl.
    unfold stores; simpl; lia.
  - left. rewrite RenderTemplateFile_tset, RenderTemplateFile_trace.
    split; [done|]. intros k. rewrite stores_app, stores_fetch_events. lia.
  - left. done.
Qed.

(** On a set built by NewSet, whatever calls are made, the log records
    exactly one store for every key the cache holds and none for any other
    key: no key is ever stored twice. *)
Theorem cache_key_stored_once ops (nm : string) (l : L) (key : string) :
  stores key (trace (run ops (newWorld nm l))) =
    match templateCache (tset (run ops (newWorld nm l))) !! key with
    | Some _ => 1
    | None => 0
    end /\
  stores key (trace (run ops (newWorld nm l))) <= 1.
Proof.
  assert (Hinv : forall ops w,
    (forall k, stores k (trace w) =
       match templateCache (tset w) !! k with Some _ => 1 | None => 0 end) ->
    forall k, stores k (trace (run ops w)) =
       match templateCache (tset (run ops w)) !! k with Some _ => 1 | None => 0 end).
  { clear. intros ops. induction ops as [|op ops IH]; intros w Hw; [done|].
    rewrite run_cons. apply IH. intros k.
    destruct (step_cache_cases op w) as [[-> Hs]|(f&t&Hk&->&_&_&Hs)].
    - rewrite Hs. apply Hw.
    - rewrite Hs, Hw. case_bool_decide as Hkey.
      + subst k. by rewrite Hk, lookup_insert_eq.
      + rewrite lookup_insert_ne by done.
        destruct (templateCache (tset w) !! k); lia. }
  assert (H0 : forall k, stores k (trace (newWorld nm l : World L Value Body)) =
            match templateCache (tset (newWorld nm l : World L Value Body)) !! k with
            | Some _ => 1
            | None => 0
            end).
  { intros k. simpl. by rewrite lookup_empty. }
  pose proof (Hinv ops (newWorld nm l) H0 key) as Hkey.
  split; [done|]. rewrite Hkey. destruct (_ !! key); lia.
Qed.

Lemma run_cache_entries ops (nm : string) (l : L) (key : string) t :
  templateCache (tset (run ops (newWorld nm l))) !! key = Some t ->
  name t = key /\ isTplString t = false /\ exists f, key = Abs l "" f.
Proof.
  assert (Hinv : forall ops w,
    (forall k t', templateCache (tset w) !! k = Some t' ->
       name t' = k /\ isTplString t' = false /\
       exists f, k = Abs (loader (tset w)) "" f) ->
    forall k t', templateCache (tset (run ops w)) !! k = Some t' ->
       name t' = k /\ isTplString t' = false /\
       exists f, k = Abs (loader (tset w)) "" f).
  { clear. intros ops. induction ops as [|op ops IH]; intros w Hw; [done|].
    rewrite run_cons. intros k t' Hk.
    assert (Hl : loader (tset (step op w)) = loader (tset w))
      by (apply set_step_loader, step_set_step).
    rewrite <- Hl. revert k t' Hk. apply IH. rewrite Hl.
    intros k t'.
    destruct (step_cache_cases op w) as [[-> _]|(f&t0&_&->&Hn&Hi&_)];
      [apply Hw|].
    destruct (decide (Abs (loader (tset w)) "" f = k)) as [<-|Hne].
    - rewrite lookup_insert_eq. intros [= <-]. eauto.
    - rewrite lookup_insert_ne by done. apply Hw. }
  apply (Hinv ops (newWorld nm l)). intros k t'. simpl.
  by rewrite lookup_empty.
Qed.

(** On a set built by NewSet every cached template is kept under its own
    name, is not string-origin, and its key is the top-level resolution of
    some requested filename. *)
Theorem cache_entries_named_by_key ops (nm : string) (l : L) (key : string) t :
  templateCache (tset (run ops (newWorld nm l))) !! key = Some t ->
  name t = key /\ isTplString t = false /\ exists f, key = Abs l "" f.
Proof. apply run_cache_entries. Qed.

(** ** Which base a returned template gives to relative references *)

Lemma FromString_result s w :
  (FromString s w).1 =
    match compile (with_firstTemplateCreated true (tset w)) stringOriginName true
            (String.list_byte_of_string s) with
    | Err e => Err e
    | Ok body => Ok (mkTemplate (next_addr w) stringOriginName true body)
    end.
Proof.
  unfold FromString, newTemplateString, newTemplate; simpl.
  by destruct (compile _ _ _ _).
Qed.

(** On a set built by NewSet: a reference made from a template returned by
    FromString resolves to the requested name itself; from a template
    returned by FromFile it is resolved by the loader against the filename
    that was given to FromFile; from a template returned by FromCache it is
    resolved against the canonical path of the request, or in debug mode
    against the filename as given. *)
Theorem returned_template_resolution_base ops (nm : string) (l : L)
    (path : string) t :
  (forall s,
     (FromString s (run ops (newWorld nm l))).1 = Ok t ->
     resolveFilename (tset (run ops (newWorld nm l))) (Some t) path = path) /\
  (forall f,
     (FromFile f (run ops (newWorld nm l))).1 = Ok t ->
     resolveFilename (tset (run ops (newWorld nm l))) (Some t) path
       = Abs l f path) /\
  (forall f,
     (FromCache f (run ops (newWorld nm l))).1 = Ok t ->
     resolveFilename (tset (run ops (newWorld nm l))) (Some t) path
       = Abs l (if Debug (tset (run ops (newWorld nm l))) then f
                else Abs l "" f) path).
Proof.
  assert (Hl : loader (tset (run ops (newWorld nm l))) = l)
    by (by rewrite run_loader).
  assert (Hfile : forall f w, (FromFile f w).1 = Ok t ->
            name t = f /\ isTplString t = false).
  { intros f w. rewrite FromFile_result.
    destruct (fetch _ _); [|done]. destruct (compile _ _ _ _); [|done].
    by intros [= <-]. }
  split_and!.
  - intros s. rewrite FromString_result.
    destruct (compile _ _ _ _); [|done]. by intros [= <-].
  - intros f Hok. destruct (Hfile _ _ Hok) as [Hn Hi].
    unfold resolveFilename. by rewrite Hi, Hn, Hl.
  - intros f Hok. unfold resolveFilename.
    destruct (Debug (tset (run ops (newWorld nm l)))) eqn:Hd.
    + rewrite FromCache_debug in Hok by done.
      destruct (Hfile _ _ Hok) as [Hn Hi]. by rewrite Hi, Hn, Hl.
    + destruct (FromCache_world_cases f _ Hd)
        as [(t'&Hk&Hc)|[(_&[e He]&_)|(_&t'&Ht&Hn&Hi&_)]].
      * rewrite Hc in Hok. simpl in Hok. simplify_eq.
        destruct (run_cache_entries ops nm l _ _ Hk) as (Hn&Hi&_).
        rewrite Hi, Hn, Hl. unfold resolveFilename. by rewrite Hl.
      * congruence.
      * rewrite Hok in Ht. simplify_eq.
        rewrite Hi, Hn, Hl. unfold resolveFilename. by rewrite Hl.
Qed.

(** ** Loaders whose resolution is idempotent *)

Lemma FromCache_miss_result f w :
  Debug (tset w) = false ->
  templateCache (tset w) !! resolveFilename (tset w) None f = None ->
  (FromCache f w).1 =
    (FromFile (resolveFilename (tset w) None f)
       (log (EvCacheLookup (resolveFilename (tset w) None f)) w)).1.
Proof.
  intros Hd Hk.
  destruct (FromFile (resolveFilename (tset w) None f)
              (log (EvCacheLookup (resolveFilename (tset w) None f)) w))
    as [[t|e] w'] eqn:HF.
  - by rewrite (FromCache_miss_compiled f w t w').
  - by rewrite (FromCache_miss_failed f w e w').
Qed.

(** When resolving the canonical path of a filename gives that path again,
    a cache miss outside debug mode reads the very source FromFile reads
    for the filename, and compiles it under the canonical path. *)
Theorem FromCache_idempotent_loader (f : string) w :
  Debug (tset w) = false ->
  templateCache (tset w) !! Abs (loader (tset w)) "" f = None ->
  Abs (loader (tset w)) "" (Abs (loader (tset w)) "" f)
    = Abs (loader (tset w)) "" f ->
  fetch (tset w) (Abs (loader (tset w)) "" f) = fetch (tset w) f /\
  (FromCache f w).1 =
    match fetch (tset w) f with
    | Err err =>
        Err (ErrorPtr {| Filename := Abs (loader (tset w)) "" f;
                         Sender := "fromfile";
                         ErrorMsg := error_Error err |})
    | Ok buf =>
        match compile (with_firstTemplateCreated true (tset w))
                (Abs (loader (tset w)) "" f) false buf with
        | Err e => Err e
        | Ok body => Ok (mkTemplate (next_addr w) (Abs (loader (tset w)) "" f)
                           false body)
        end
    end.
Proof.
  intros Hd Hk Hi.
  assert (Hf : fetch (tset w) (Abs (loader (tset w)) "" f) = fetch (tset w) f).
  { unfold fetch, resolveFilename. by rewrite Hi. }
  split; [done|].
  rewrite FromCache_miss_result by done. rewrite FromFile_result.
  unfold log; cbn [tset next_addr].
  change (resolveFilename (tset w) None f) with (Abs (loader (tset w)) "" f).
  by rewrite Hf.
Qed.

(** ** Configuring a new set *)

Lemma run_config_only_world ops w :
  config_only ops = true ->
  trace (run ops w) = trace w /\ next_addr (run ops w) = next_addr w.
Proof.
  revert w. induction ops as [|op ops IH]; intros w Hc; [done|].
  simpl in Hc. apply andb_prop in Hc as [Hop Hc].
  rewrite run_cons. destruct (IH (step op w) Hc) as [-> ->].
  by destruct op.
Qed.

(** Bans and assignments to Debug, accepted or rejected, never set the
    latch: a set built by NewSet that has only been configured has the
    latch unset and an empty cache, and nothing has been fetched, compiled
    or allocated. *)
Theorem configuring_keeps_sandbox_open ops (nm : string) (l : L) :
  config_only ops = true ->
  firstTemplateCreated (tset (run ops (newWorld nm l))) = false /\
  templateCache (tset (run ops (newWorld nm l))) = ∅ /\
  trace (run ops (newWorld nm l)) = [] /\
  next_addr (run ops (newWorld nm l)) = 0.
Proof.
  intros Hc.
  assert (Hl : firstTemplateCreated (tset (run ops (newWorld nm l))) = false)
    by (by rewrite run_config_only).
  destruct (run_config_only_world ops (newWorld nm l) Hc) as [Ht Ha].
  split_and!; [done| |done|done].
  by apply run_cache_latched.
Qed.

(** ** The log of a cache miss *)

(** Outside debug mode a cache miss logs, in this order: the lookup under
    the canonical path, one call to the loader for the resolution of that
    path, the compile of the fetched source when the fetch succeeded, and
    the store when a template is returned.  Nothing is stored when the call
    fails. *)
Theorem FromCache_miss_log (f : string) w :
  Debug (tset w) = false ->
  templateCache (tset w) !! Abs (loader (tset w)) "" f = None ->
  logged w (FromCache f w).2 =
    EvCacheLookup (Abs (loader (tset w)) "" f) ::
    EvGet (Abs (loader (tset w)) "" (Abs (loader (tset w)) "" f)) ::
    match fetch (tset w) (Abs (loader (tset w)) "" f) with
    | Ok buf => [EvCompile (Abs (loader (tset w)) "" f) false buf]
    | Err _ => []
    end ++
    match (FromCache f w).1 with
    | Ok t => [EvCacheStore (Abs (loader (tset w)) "" f) (tpl_addr t)]
    | Err _ => []
    end.
Proof.
  intros Hd Hk. apply logged_app.
  change (Abs (loader (tset w)) "" f) with (resolveFilename (tset w) None f) in *.
  destruct (FromCache_world_cases f w Hd)
    as [(t&Hk'&_)|[(_&[e He]&_&->)|(_&t&Ht&_&_&_&->)]].
  - congruence.
  - rewrite He. unfold fetch_events. simpl. by rewrite app_nil_r.
  - rewrite Ht. unfold fetch_events. simpl. done.
Qed.

End More.

(** ** The further properties at concrete inputs *)

Lemma sandbox_frozen_after_latch_witness :
  firstTemplateCreated
    (tset (run [OpBanTag "ssi"; OpFromString "hello"] (demoWorld flatLoader)))
    = true /\
  bannedTags
    (tset (run [OpBanTag "include"; OpFromCache "page.txt"; OpBanFilter "safe"]
       (run [OpBanTag "ssi"; OpFromString "hello"] (demoWorld flatLoader))))
    = bannedTags
        (tset (run [OpBanTag "ssi"; OpFromString "hello"] (demoWorld flatLoader))).
Proof.
  assert (Hl : firstTemplateCreated
                 (tset (run [OpBanTag "ssi"; OpFromString "hello"]
                          (demoWorld flatLoader))) = true) by by_compute.
  split; [exact Hl|].
  exact (proj1 (sandbox_frozen_after_latch
                  [OpBanTag "include"; OpFromCache "page.txt"; OpBanFilter "safe"]
                  _ Hl)).
Defined.

Lemma banned_append_only_witness :
  banned Tag (tset (run [OpBanTag "ssi"] (demoWorld flatLoader))) !! "ssi"
    = Some true /\
  banned Tag
    (tset (run [OpBanTag "include"; OpFromFile "page.txt"; OpBanTag "ssi"]
       (run [OpBanTag "ssi"] (demoWorld flatLoader)))) !! "ssi" = Some true.
Proof.
  assert (Hb : banned Tag (tset (run [OpBanTag "ssi"] (demoWorld flatLoader)))
                 !! "ssi" = Some true) by by_compute.
  split; [exact Hb|].
  exact (banned_append_only
           [OpBanTag "include"; OpFromFile "page.txt"; OpBanTag "ssi"]
           _ Tag "ssi" true Hb).
Defined.

Lemma banned_within_registry_witness :
  banned Filter
    (tset (run [OpBanFilter "nosuch"; OpBanFilter "upper"]
             (newWorld "demo" flatLoader))) !! "upper" = Some true /\
  "upper" ∈ registry (L := MemLoader) (Value := string) (Body := bytes) Filter.
Proof.
  assert (Hb : banned Filter
                 (tset (run [OpBanFilter "nosuch"; OpBanFilter "upper"]
                          (newWorld "demo" flatLoader))) !! "upper" = Some true)
    by by_compute.
  split; [exact Hb|].
  exact (proj1 (banned_within_registry
                  [OpBanFilter "nosuch"; OpBanFilter "upper"] "demo" flatLoader
                  Filter "upper" true Hb)).
Defined.

Lemma Ban_twice_witness :
  "safe" ∈ registry (L := MemLoader) (Value := string) (Body := bytes) Filter /\
  firstTemplateCreated (demoSet flatLoader) = false /\
  banned Filter (demoSet flatLoader) !! "safe" = None /\
  Ban Filter "safe" (Ban Filter "safe" (demoSet flatLoader)).2
    = (Some (AlreadyBanned Filter "safe"),
       (Ban Filter "safe" (demoSet flatLoader)).2).
Proof.
  assert (Hn : "safe" ∈ registry (L := MemLoader) (Value := string)
                 (Body := bytes) Filter) by by_decide.
  assert (Hl : firstTemplateCreated (demoSet flatLoader) = false) by by_compute.
  assert (Hb : banned Filter (demoSet flatLoader) !! "safe" = None) by by_compute.
  split_and!; [exact Hn|exact Hl|exact Hb|].
  exact (proj2 (proj2 (Ban_twice Filter "safe" (demoSet flatLoader) Hn Hl Hb))).
Defined.

Lemma cached_template_freezes_sandbox_witness :
  is_Some (templateCache
             (tset (run [OpFromCache "page.txt"] (newWorld "demo" flatLoader)))
             !! "page.txt") /\
  "ssi" ∈ registry (L := MemLoader) (Value := string) (Body := bytes) Tag /\
  (Ban Tag "ssi"
     (tset (run [OpFromCache "page.txt"] (newWorld "demo" flatLoader)))).1
    = Some (SandboxFrozen Tag).
Proof.
  assert (Hk : is_Some (templateCache
                 (tset (run [OpFromCache "page.txt"] (newWorld "demo" flatLoader)))
                 !! "page.txt")) by (exists pageTpl; by_compute).
  assert (Hn : "ssi" ∈ registry (L := MemLoader) (Value := string)
                 (Body := bytes) Tag) by by_decide.
  split_and!; [exact Hk|exact Hn|].
  rewrite (cached_template_freezes_sandbox [OpFromCache "page.txt"] "demo"
             flatLoader "page.txt" Tag "ssi" Hk Hn).
  reflexivity.
Defined.

Lemma FromCache_again_is_hit_witness :
  Debug (tset (demoWorld flatLoader)) = false /\
  (FromCache "page.txt" (demoWorld flatLoader)).1 = Ok pageTpl /\
  logged (FromCache "page.txt" (demoWorld flatLoader)).2
    (FromCache "page.txt" (FromCache "page.txt" (demoWorld flatLoader)).2).2
    = [EvCacheLookup (Abs (loader (tset (demoWorld flatLoader))) "" "page.txt")].
Proof.
  assert (Hd : Debug (tset (demoWorld flatLoader)) = false) by by_compute.
  assert (Hok : (FromCache "page.txt" (demoWorld flatLoader)).1 = Ok pageTpl)
    by by_compute.
  split_and!; [exact Hd|exact Hok|].
  exact (proj1 (proj2 (FromCache_again_is_hit "page.txt" _ pageTpl Hd Hok))).
Defined.

Lemma only_FromCache_touches_cache_witness :
  is_FromCache (OpFromFile "page.txt" : Op string) = false /\
  templateCache
    (tset (step (OpFromFile "page.txt")
             (run [OpFromCache "page.txt"] (demoWorld flatLoader))))
    = templateCache (tset (run [OpFromCache "page.txt"] (demoWorld flatLoader))).
Proof.
  assert (Hop : is_FromCache (OpFromFile "page.txt" : Op string) = false)
    by by_compute.
  split; [exact Hop|].
  exact (proj1 (only_FromCache_touches_cache (OpFromFile "page.txt")
                  (run [OpFromCache "page.txt"] (demoWorld flatLoader))
                  (or_introl Hop))).
Defined.

Lemma cache_entries_named_by_key_witness :
  templateCache
    (tset (run [OpFromCache "page.txt"] (newWorld "demo" flatLoader)))
    !! "page.txt" = Some pageTpl /\
  name pageTpl = "page.txt" /\ isTplString pageTpl = false.
Proof.
  assert (Hk : templateCache
                 (tset (run [OpFromCache "page.txt"] (newWorld "demo" flatLoader)))
                 !! "page.txt" = Some pageTpl) by by_compute.
  destruct (cache_entries_named_by_key [OpFromCache "page.txt"] "demo" flatLoader
              "page.txt" pageTpl Hk) as (Hn & Hi & _).
  split_and!; [exact Hk|exact Hn|exact Hi].
Defined.

Lemma FromCache_idempotent_loader_witness :
  Debug (tset (demoWorld flatLoader)) = false /\
  templateCache (tset (demoWorld flatLoader))
    !! Abs (loader (tset (demoWorld flatLoader))) "" "page.txt" = None /\
  Abs (loader (tset (demoWorld flatLoader))) ""
    (Abs (loader (tset (demoWorld flatLoader))) "" "page.txt")
    = Abs (loader (tset (demoWorld flatLoader))) "" "page.txt" /\
  fetch (tset (demoWorld flatLoader))
    (Abs (loader (tset (demoWorld flatLoader))) "" "page.txt")
    = fetch (tset (demoWorld flatLoader)) "page.txt".
Proof.
  assert (Hd : Debug (tset (demoWorld flatLoader)) = false) by by_compute.
  assert (Hk : templateCache (tset (demoWorld flatLoader))
                 !! Abs (loader (tset (demoWorld flatLoader))) "" "page.txt"
               = None) by by_compute.
  assert (Hi : Abs (loader (tset (demoWorld flatLoader))) ""
                 (Abs (loader (tset (demoWorld flatLoader))) "" "page.txt")
               = Abs (loader (tset (demoWorld flatLoader))) "" "page.txt")
    by by_compute.
  split_and!; [exact Hd|exact Hk|exact Hi|].
  exact (proj1 (FromCache_idempotent_loader "page.txt" _ Hd Hk Hi)).
Defined.

Lemma FromCache_miss_log_witness :
  Debug (tset (demoWorld prefixLoader)) = false /\
  templateCache (tset (demoWorld prefixLoader))
    !! Abs (loader (tset (demoWorld prefixLoader))) "" "page.txt" = None /\
  logged (demoWorld prefixLoader) (FromCache "page.txt" (demoWorld prefixLoader)).2
    = [EvCacheLookup "/tpl/page.txt"; EvGet "/tpl//tpl/page.txt"].
Proof.
  assert (Hd : Debug (tset (demoWorld prefixLoader)) = false) by by_compute.
  assert (Hk : templateCache (tset (demoWorld prefixLoader))
                 !! Abs (loader (tset (demoWorld prefixLoader))) "" "page.txt"
               = None) by by_compute.
  split_and!; [exact Hd|exact Hk|].
  rewrite (FromCache_miss_log "page.txt" _ Hd Hk). by_compute.
Defined.

Lemma configuring_keeps_sandbox_open_witness :
  config_only [OpBanTag "ssi"; OpBanTag "nosuch"; OpSetDebug true;
               OpBanTag "ssi"; OpBanFilter "upper" : Op string] = true /\
  firstTemplateCreated
    (tset (run [OpBanTag "ssi"; OpBanTag "nosuch"; OpSetDebug true;
                OpBanTag "ssi"; OpBanFilter "upper"]
             (newWorld "demo" flatLoader))) = false.
Proof.
  assert (Hc : config_only [OpBanTag "ssi"; OpBanTag "nosuch"; OpSetDebug true;
                            OpBanTag "ssi"; OpBanFilter "upper" : Op string]
               = true) by by_compute.
  split; [exact Hc|].
  exact (proj1 (configuring_keeps_sandbox_open _ "demo" flatLoader Hc)).
Defined.
